(** * Deep-research agent: snapshot polling, search adapters and the
    orchestration graph

  A shallow embedding of [SnapshotOperation.py], [webOperations.py],
  [prompts.py] and [main.py].  Python values that come from JSON are
  modelled by the type [json]; code that performs I/O (environment
  lookups, HTTP requests, sleeping, printing, language-model calls) or
  raises exceptions lives in the monad [M], which threads a [world]
  holding the scripted behaviour of the outside and the trace of effects
  performed so far. *)

From Stdlib Require Import ZArith List String Ascii Bool Lia.
Import ListNotations.

Local Open Scope list_scope.
Set Warnings "-register-all".

(* ===================================================================== *)
(** ** Python values *)
(* ===================================================================== *)

Module PyVal.

(** A decoded JSON document, i.e. the Python value [response.json()]
    returns: [None], [bool], [int], [str], [list] or [dict].  A [dict] is
    its insertion-ordered list of bindings.  Numeric leaves are integers. *)
Inductive json : Type :=
| JNull
| JBool (b : bool)
| JNum (n : Z)
| JStr (s : string)
| JList (items : list json)
| JDict (fields : list (string * json)).

(** [bool(v)]: the truth value Python's [if v] / [not v] / [v or w] use. *)
Definition truthy (v : json) : bool :=
  match v with
  | JNull => false
  | JBool b => b
  | JNum n => negb (Z.eqb n 0)
  | JStr s => negb (String.eqb s EmptyString)
  | JList items => match items with [] => false | _ :: _ => true end
  | JDict fields => match fields with [] => false | _ :: _ => true end
  end.

(** Truth value of a [str | None]. *)
Definition truthy_str (o : option string) : bool :=
  match o with
  | None => false
  | Some s => negb (String.eqb s EmptyString)
  end.

(** Truth value of a [dict | None] / [list | None] held as an option. *)
Definition truthy_opt (o : option json) : bool :=
  match o with
  | None => false
  | Some v => truthy v
  end.

Definition truthy_list {A : Type} (o : option (list A)) : bool :=
  match o with
  | None => false
  | Some [] => false
  | Some (_ :: _) => true
  end.

(** [isinstance(v, dict)] and [isinstance(v, list)]. *)
Definition is_dict (v : json) : bool :=
  match v with JDict _ => true | _ => false end.

Definition is_list (v : json) : bool :=
  match v with JList _ => true | _ => false end.

(** Lookup of a key among the bindings of a dict. *)
Fixpoint lookup (key : string) (fields : list (string * json)) : option json :=
  match fields with
  | [] => None
  | (k, v) :: rest => if String.eqb k key then Some v else lookup key rest
  end.

(** [d.get(key, default)] on the bindings of a dict. *)
Definition get_default (fields : list (string * json)) (key : string)
           (default : json) : json :=
  match lookup key fields with
  | Some v => v
  | None => default
  end.

(** [v == "lit"] for a string literal: only an equal [str] compares equal. *)
Definition eq_str (v : json) (lit : string) : bool :=
  match v with
  | JStr s => String.eqb s lit
  | _ => false
  end.

(** [x or []]-style injection of a [str | None] into a Python value. *)
Definition of_opt_str (o : option string) : json :=
  match o with
  | None => JNull
  | Some s => JStr s
  end.

(** A piece of an f-string: literal text, or [{v}], the [str()] of a value
    (left symbolic: only its argument matters).  [{s}] for a [str] is the
    string itself. *)
Inductive piece : Type :=
| Lit (s : string)
| Fmt (v : json).

Definition text : Type := list piece.

Definition interp (v : json) : piece :=
  match v with
  | JStr s => Lit s
  | _ => Fmt v
  end.

End PyVal.
Export PyVal.

(* ===================================================================== *)
(** ** prompts.py *)
(* ===================================================================== *)

Module Prompts.

(** The prompt templates are static text with the arguments interpolated
    by f-strings; no template can fail.  A message pair
    ([make_message_pair] of a system and a user message) is represented
    by the generator that builds it and the values it interpolates.
    [main.py] imports the generators under the names
    [get_*_messages]. *)
Inductive prompt : Type :=
| reddit_url_analysis_msgs (question : option string) (reddit_output : option json)
| google_analysis_msgs (question : option string) (google_output : option json)
| bing_analysis_msgs (question : option string) (bing_output : option json)
| reddit_discussion_msgs (question : option string) (reddit_output : option json)
                         (post_data : option json)
| synthesis_msgs (question : option string)
                 (google_summary bing_summary reddit_summary : option string).

End Prompts.
Export Prompts.

(* ===================================================================== *)
(** ** Effects: the world, exceptions and the monad *)
(* ===================================================================== *)

Module Eff.

(** The Python exceptions the program raises or may receive. *)
Inductive exn : Type :=
| EnvironmentError (msg : string)
| ValueError (msg : text)
| TypeError
| AttributeError
| OverflowError
| RequestException
| OtherException.

(** [isinstance(e, requests.exceptions.RequestException)]. *)
Definition is_request_exception (e : exn) : bool :=
  match e with RequestException => true | _ => false end.

Inductive outcome (A : Type) : Type :=
| Ok (a : A)
| Raise (e : exn).
Arguments Ok {A} a.
Arguments Raise {A} e.

Inductive http_method : Type := GET | POST.

(** One call of [requests.get] / [requests.post]. *)
Record request : Type := mkRequest {
  meth : http_method;
  url : text;
  headers : list (string * string);
  params : list (string * string);
  body : option json
}.

(** The lines the program prints, one constructor per [print] statement. *)
Inductive log_line : Type :=
(* SnapshotOperation.py *)
| LogChecking (attempt max_retries : Z)
| LogSnapshotReady
| LogSnapshotFailed
| LogSnapshotRunning
| LogUnexpectedStatus (status : json)
| LogCheckError (err : exn)
| LogTimedOut
| LogDownloading
| LogDownloadComplete (item_count : Z)
| LogDownloadFailed (err : exn)
(* webOperations.py *)
| LogRequestFailed (err : exn)
| LogUnexpectedError (err : exn)
| LogTriggerFailed (task_name : string)
| LogNoSnapshotId (task_name : string)
| LogNotCompleted (task_name : string)
| LogNoRedditUrls
(* main.py *)
| LogSearching (source : string) (query : option string)
| LogValue (v : option json)
| LogSelectedUrls
| LogSelectedUrl (idx : Z) (u : string)
| LogUrlExtractionError (e : exn)
| LogNoUrlsToFetch
| LogFetching (n : Z)
| LogRetrieved (n : Z)
| LogRetrievalFailed
| LogAnalysis (source : string)
| LogSynthesis.

(** Observable effects, in the order they happen. *)
Inductive event : Type :=
| EvHttp (r : request)
| EvSleep (seconds : Z)
| EvModel (structured : bool) (p : prompt)
| EvPrint (l : log_line).

(** The outside of the program.  [environ] is the process environment;
    [provider n r] is what the [n]-th HTTP request of the run yields when
    it is [r]: the decoded JSON body, or the exception raised by the
    request, by [raise_for_status] or by [json()]; [model_text] and
    [model_urls] script the language model the same way (free text, and
    the [selected_urls] of a structured reply).  [sent] and [asked] count
    the requests and model calls made so far. *)
Record world : Type := mkWorld {
  environ : string -> option string;
  provider : nat -> request -> outcome json;
  model_text : nat -> prompt -> outcome string;
  model_urls : nat -> prompt -> outcome (list string);
  sent : nat;
  asked : nat;
  trace : list event
}.

Definition M (A : Type) : Type := world -> outcome A * world.

Definition ret {A : Type} (a : A) : M A := fun w => (Ok a, w).

Definition bind {A B : Type} (m : M A) (k : A -> M B) : M B :=
  fun w =>
    match m w with
    | (Ok a, w') => k a w'
    | (Raise e, w') => (Raise e, w')
    end.

Definition raise {A : Type} (e : exn) : M A := fun w => (Raise e, w).

(** [try: body  except Exception as err: handler err]. *)
Definition try_except {A : Type} (body : M A) (handler : exn -> M A) : M A :=
  fun w =>
    match body w with
    | (Ok a, w') => (Ok a, w')
    | (Raise e, w') => handler e w'
    end.

Definition emit (e : event) : M unit :=
  fun w =>
    (Ok tt, mkWorld (environ w) (provider w) (model_text w) (model_urls w)
                    (sent w) (asked w) (trace w ++ [e])).

Definition print (l : log_line) : M unit := emit (EvPrint l).

(** The longest sleep, in seconds, whose length in nanoseconds fits the
    signed 64-bit clock of the interpreter. *)
Definition max_sleep_seconds : Z := 9223372036.

(** [time.sleep(seconds)] for an [int]: [ValueError] for a negative
    length, [OverflowError] for one that does not fit the clock. *)
Definition sleep (seconds : Z) : M unit :=
  if (seconds <? 0)%Z then
    raise (ValueError [Lit "sleep length must be non-negative"])
  else if (max_sleep_seconds <? seconds)%Z then raise OverflowError
  else emit (EvSleep seconds).

(** [os.getenv(name)]. *)
Definition getenv (name : string) : M (option string) :=
  fun w => (Ok (environ w name), w).

(** [response = requests.<meth>(...); response.raise_for_status();
    response.json()]: one network round trip. *)
Definition http (r : request) : M json :=
  fun w =>
    (provider w (sent w) r,
     mkWorld (environ w) (provider w) (model_text w) (model_urls w)
             (S (sent w)) (asked w) (trace w ++ [EvHttp r])).

(** [llm.invoke(prompts).content]. *)
Definition llm_invoke (p : prompt) : M string :=
  fun w =>
    (model_text w (asked w) p,
     mkWorld (environ w) (provider w) (model_text w) (model_urls w)
             (sent w) (S (asked w)) (trace w ++ [EvModel false p])).

(** [llm.with_structured_output(RedditURLSelection).invoke(prompts)
    .selected_urls]. *)
Definition structured_llm_invoke (p : prompt) : M (list string) :=
  fun w =>
    (model_urls w (asked w) p,
     mkWorld (environ w) (provider w) (model_text w) (model_urls w)
             (sent w) (S (asked w)) (trace w ++ [EvModel true p])).

(** [v.get(key, default)]: a dict answers (with [default] for a missing
    key), any other JSON value has no attribute [get]. *)
Definition py_get_or (v : json) (key : string) (default : json) : M json :=
  match v with
  | JDict fields => ret (get_default fields key default)
  | _ => raise AttributeError
  end.

(** [v.get(key)]. *)
Definition py_get (v : json) (key : string) : M json := py_get_or v key JNull.

(** The elements a [for x in v] visits: the items of a list, the keys of a
    dict, the characters of a string (one per byte here; all of them are
    [str] values); other values are not iterable. *)
Definition py_iter (v : json) : M (list json) :=
  match v with
  | JList items => ret items
  | JDict fields => ret (map (fun kv => JStr (fst kv)) fields)
  | JStr s => ret (map (fun c => JStr (String c EmptyString)) (list_ascii_of_string s))
  | _ => raise TypeError
  end.

(** [len(v)] of a sized value. *)
Definition py_len (v : json) : Z :=
  match v with
  | JList items => Z.of_nat (List.length items)
  | JDict fields => Z.of_nat (List.length fields)
  | JStr s => Z.of_nat (String.length s)
  | _ => 0%Z
  end.

(** A [for] loop whose body may [return]: the body yields [Some r] for
    [return r] and [None] to go on with the next element. *)
Fixpoint for_each {A R : Type} (xs : list A) (body : A -> M (option R))
  : M (option R) :=
  match xs with
  | [] => ret None
  | x :: rest =>
      bind (body x) (fun r =>
        match r with
        | Some v => ret (Some v)
        | None => for_each rest body
        end)
  end.

(** [range(lo, hi)]. *)
Definition range (lo hi : Z) : list Z :=
  map (fun i => (lo + Z.of_nat i)%Z) (seq 0 (Z.to_nat (hi - lo))).

(** Which events are network round trips, sleeps, model calls. *)
Definition is_http (e : event) : bool :=
  match e with EvHttp _ => true | _ => false end.
Definition is_sleep (e : event) : bool :=
  match e with EvSleep _ => true | _ => false end.
Definition is_model (e : event) : bool :=
  match e with EvModel _ _ => true | _ => false end.
Definition is_print (e : event) : bool :=
  match e with EvPrint _ => true | _ => false end.

(** The trace without the printed lines. *)
Definition actions (t : list event) : list event :=
  filter (fun e => negb (is_print e)) t.

End Eff.
Export Eff.

Declare Scope eff_scope.
Delimit Scope eff_scope with eff.
Notation "x <- m ;; k" := (bind m (fun x => k))
(at level 61, m at next level, right associativity) : eff_scope.
Notation "m ;; k" := (bind m (fun _ => k))
(at level 61, right associativity) : eff_scope.
Local Open Scope eff_scope.

(* ===================================================================== *)
(** ** SnapshotOperation.py *)
(* ===================================================================== *)

Module SnapshotOperation.

Definition api_key_var : string := "BRIGHTDATA_API_KEY".

Definition missing_key : exn :=
  EnvironmentError "Missing BRIGHTDATA_API_KEY in environment variables.".

(** The key, or the [EnvironmentError] raised when [not api_key]. *)
Definition require_api_key : M string :=
  api_key <- getenv api_key_var ;;
  match api_key with
  | Some k => if String.eqb k EmptyString then raise missing_key else ret k
  | None => raise missing_key
  end.

Definition auth_headers (api_key : string) : list (string * string) :=
  [("Authorization"%string, String.append "Bearer " api_key)].

Definition progress_request (api_key : string) (snapshot_id : json) : request :=
  mkRequest GET
    [Lit "https://api.brightdata.com/datasets/v3/progress/"; interp snapshot_id]
    (auth_headers api_key) [] None.

(** The body of the [try] block of one polling attempt: [Some b] when the
    function returns [b], [None] when control falls through to the
    [time.sleep]. *)
Definition poll_once (req : request) (attempt max_retries : Z)
  : M (option bool) :=
  print (LogChecking attempt max_retries) ;;
  data <- http req ;;
  status <- py_get data "status" ;;
  if eq_str status "ready" then
    print LogSnapshotReady ;; ret (Some true)
  else if eq_str status "failed" then
    print LogSnapshotFailed ;; ret (Some false)
  else if eq_str status "running" then
    print LogSnapshotRunning ;; ret None
  else
    print (LogUnexpectedStatus status) ;; ret None.

(** One iteration of the [for] loop. *)
Definition attempt_body (req : request) (max_retries interval attempt : Z)
  : M (option bool) :=
  r <- try_except (poll_once req attempt max_retries)
                  (fun err => print (LogCheckError err) ;; ret None) ;;
  match r with
  | Some b => ret (Some b)
  | None => sleep interval ;; ret None
  end.

Definition check_snapshot_status (snapshot_id : json)
           (max_retries interval : Z) : M bool :=
  api_key <- require_api_key ;;
  let req := progress_request api_key snapshot_id in
  r <- for_each (range 1 (max_retries + 1))
                (attempt_body req max_retries interval) ;;
  match r with
  | Some b => ret b
  | None => print LogTimedOut ;; ret false
  end.

Definition default_max_retries : Z := 60.
Definition default_interval : Z := 5.

Definition download_request (api_key : string) (snapshot_id : json)
           (file_format : string) : request :=
  mkRequest GET
    [Lit "https://api.brightdata.com/datasets/v3/snapshot/"; interp snapshot_id;
     Lit "?format="; Lit file_format]
    (auth_headers api_key) [] None.

(** Returns the decoded payload, [JNull] standing for Python's [None]. *)
Definition fetch_snapshot_data (snapshot_id : json) (file_format : string)
  : M json :=
  api_key <- require_api_key ;;
  try_except
    (print LogDownloading ;;
     data <- http (download_request api_key snapshot_id file_format) ;;
     let item_count :=
       match data with
       | JList items => Z.of_nat (List.length items)
       | _ => 1%Z
       end in
     print (LogDownloadComplete item_count) ;;
     ret data)
    (fun err => print (LogDownloadFailed err) ;; ret JNull).

Definition default_file_format : string := "json".

End SnapshotOperation.
Export SnapshotOperation.

(* ===================================================================== *)
(** ** webOperations.py *)
(* ===================================================================== *)

Module WebOperations.

Definition REDDIT_DISCOVERY_DATASET : string := "gd_lvz8ah06191smkebj4".
Definition REDDIT_POSTS_DATASET : string := "gd_lvzdpsdlw09j6t702".
Definition BRIGHTDATA_API_BASE : string := "https://api.brightdata.com".

(** [urllib.parse.quote_plus] on the UTF-8 bytes of a string: letters,
    digits and [_.-~] are kept, a space becomes [+], any other byte
    becomes [%XX] in upper-case hexadecimal. *)
Definition always_safe (c : ascii) : bool :=
  let n := nat_of_ascii c in
  ((65 <=? n) && (n <=? 90)) || ((97 <=? n) && (n <=? 122))
  || ((48 <=? n) && (n <=? 57))
  || (n =? 95) || (n =? 46) || (n =? 45) || (n =? 126).

Definition hex_digit (n : nat) : ascii :=
  if n <? 10 then ascii_of_nat (48 + n) else ascii_of_nat (55 + n).

Fixpoint quote_plus (s : string) : string :=
  match s with
  | EmptyString => EmptyString
  | String c rest =>
      if always_safe c then String c (quote_plus rest)
      else if Ascii.eqb c " " then String "+" (quote_plus rest)
      else
        let n := nat_of_ascii c in
        String "%" (String (hex_digit (n / 16))
                           (String (hex_digit (n mod 16)) (quote_plus rest)))
  end.

Definition api_headers (api_key : string) : list (string * string) :=
  [("Authorization"%string, String.append "Bearer " api_key);
   ("Content-Type"%string, "application/json"%string)].

(** [_send_api_request(url, params=params, json=payload)]; [JNull] is
    Python's [None]. *)
Definition _send_api_request (url : text) (params : list (string * string))
           (payload : option json) : M json :=
  api_key <- require_api_key ;;
  try_except
    (http (mkRequest POST url (api_headers api_key) params payload))
    (fun err =>
       if is_request_exception err
       then print (LogRequestFailed err) ;; ret JNull
       else print (LogUnexpectedError err) ;; ret JNull).

Definition base_urls : list (string * string) :=
  [("google"%string, "https://www.google.com/search"%string);
   ("bing"%string, "https://www.bing.com/search"%string)].

Fixpoint assoc (key : string) (table : list (string * string)) : option string :=
  match table with
  | [] => None
  | (k, v) :: rest => if String.eqb k key then Some v else assoc key rest
  end.

Definition serp_url (base query : string) : string :=
  String.append base
    (String.append "?q=" (String.append (quote_plus query) "&brd_json=1")).

Definition serp_payload (base query : string) : json :=
  JDict [("zone"%string, JStr "ai_agent2");
         ("url"%string, JStr (serp_url base query));
         ("format"%string, JStr "raw")].

Definition serp_api_url : text := [Lit (String.append BRIGHTDATA_API_BASE "/request")].

(** [query] is a [str]; the graph passes [state.get("user_query")], which
    may be [None], on which [quote_plus] raises [TypeError]. *)
Definition serp_search (query : option string) (engine : string)
  : M (option json) :=
  match assoc engine base_urls with
  | None =>
      raise (ValueError [Lit "Invalid search engine '"; Lit engine;
                         Lit "'. Supported: google, bing"])
  | Some base =>
      match query with
      | None => raise TypeError
      | Some q =>
          response_data <- _send_api_request serp_api_url [] (Some (serp_payload base q)) ;;
          if negb (truthy response_data) then ret None
          else
            knowledge <- py_get_or response_data "knowledge" (JDict []) ;;
            organic <- py_get_or response_data "organic" (JList []) ;;
            ret (Some (JDict [("knowledge"%string, knowledge);
                              ("organic"%string, organic)]))
      end
  end.

Definition _execute_snapshot_pipeline (trigger_url : text)
           (params : list (string * string)) (payload : json)
           (task_name : string) : M json :=
  trigger_response <- _send_api_request trigger_url params (Some payload) ;;
  if negb (truthy trigger_response) then
    print (LogTriggerFailed task_name) ;; ret JNull
  else
    snapshot_id <- py_get trigger_response "snapshot_id" ;;
    if negb (truthy snapshot_id) then
      print (LogNoSnapshotId task_name) ;; ret JNull
    else
      completed <- check_snapshot_status snapshot_id default_max_retries
                                         default_interval ;;
      if negb completed then
        print (LogNotCompleted task_name) ;; ret JNull
      else
        fetch_snapshot_data snapshot_id default_file_format.

Definition trigger_url : text :=
  [Lit (String.append BRIGHTDATA_API_BASE "/datasets/v3/trigger")].

(** [post.get(key)] for an entry that passed [isinstance(post, dict)]. *)
Definition record_get (post : json) (key : string) : json :=
  match post with
  | JDict fields => get_default fields key JNull
  | _ => JNull
  end.

Definition parse_post (post : json) : json :=
  JDict [("title"%string, record_get post "title");
         ("url"%string, record_get post "url")].

Definition parse_comment (comment : json) : json :=
  JDict [("comment_id"%string, record_get comment "comment_id");
         ("content"%string, record_get comment "comment");
         ("date"%string, record_get comment "date_posted")].

(** [[f(x) for x in items if isinstance(x, dict)]]. *)
Definition parse_records (f : json -> json) (items : list json) : list json :=
  map f (filter is_dict items).

Definition search_params : list (string * string) :=
  [("dataset_id"%string, REDDIT_DISCOVERY_DATASET);
   ("include_errors"%string, "true"%string);
   ("type"%string, "discover_new"%string);
   ("discover_by"%string, "keyword"%string)].

Definition search_payload (keyword : option string) (date sort_by : string)
           (num_of_posts : Z) : json :=
  JList [JDict [("keyword"%string, of_opt_str keyword);
                ("date"%string, JStr date);
                ("sort_by"%string, JStr sort_by);
                ("num_of_posts"%string, JNum num_of_posts)]].

Definition search_result (parsed_posts : list json) : json :=
  JDict [("parsed_posts"%string, JList parsed_posts);
         ("total_found"%string, JNum (Z.of_nat (List.length parsed_posts)))].

Definition reddit_search_api (keyword : option string) (date sort_by : string)
           (num_of_posts : Z) : M (option json) :=
  snapshot_data <- _execute_snapshot_pipeline trigger_url search_params
                     (search_payload keyword date sort_by num_of_posts)
                     "reddit search" ;;
  if negb (truthy snapshot_data) then ret None
  else
    items <- py_iter snapshot_data ;;
    let parsed_posts := parse_records parse_post items in
    ret (Some (search_result parsed_posts)).

Definition default_date : string := "All time".
Definition default_sort_by : string := "Hot".
Definition default_num_of_posts : Z := 75.

Definition posts_params : list (string * string) :=
  [("dataset_id"%string, REDDIT_POSTS_DATASET);
   ("include_errors"%string, "true"%string)].

Definition posts_payload (urls : list string) (days_back : Z)
           (load_all_replies : bool) (comment_limit : string) : json :=
  JList (map (fun url =>
                JDict [("url"%string, JStr url);
                       ("days_back"%string, JNum days_back);
                       ("load_all_replies"%string, JBool load_all_replies);
                       ("comment_limit"%string, JStr comment_limit)])
             urls).

Definition comments_result (parsed_comments : list json) : json :=
  JDict [("comments"%string, JList parsed_comments);
         ("total_retrieved"%string, JNum (Z.of_nat (List.length parsed_comments)))].

Definition reddit_post_retrieval (urls : list string) (days_back : Z)
           (load_all_replies : bool) (comment_limit : string)
  : M (option json) :=
  match urls with
  | [] => print LogNoRedditUrls ;; ret None
  | _ :: _ =>
      snapshot_data <- _execute_snapshot_pipeline trigger_url posts_params
                         (posts_payload urls days_back load_all_replies comment_limit)
                         "reddit comments" ;;
      if negb (truthy snapshot_data) then ret None
      else
        items <- py_iter snapshot_data ;;
        let parsed_comments := parse_records parse_comment items in
        ret (Some (comments_result parsed_comments))
  end.

Definition default_days_back : Z := 10.
Definition default_load_all_replies : bool := false.
Definition default_comment_limit : string := "".

End WebOperations.
Export WebOperations.

(* ===================================================================== *)
(** ** main.py *)
(* ===================================================================== *)

Module Main.

Record message : Type := mkMessage {
  role : string;
  content : string
}.

Record ResearchState : Type := mkState {
  messages : list message;
  user_query : option string;
  google_output : option json;
  bing_output : option json;
  reddit_output : option json;
  chosen_reddit_urls : option (list string);
  reddit_posts_data : option json;
  google_summary : option string;
  bing_summary : option string;
  reddit_summary : option string;
  final_summary : option string
}.

(** One entry of the dict a node returns: the field it writes and the
    value. *)
Inductive update : Type :=
| Set_google_output (v : option json)
| Set_bing_output (v : option json)
| Set_reddit_output (v : option json)
| Set_chosen_reddit_urls (v : option (list string))
| Set_reddit_posts_data (v : option json)
| Set_google_summary (v : option string)
| Set_bing_summary (v : option string)
| Set_reddit_summary (v : option string)
| Set_final_summary (v : option string)
| Add_messages (ms : list message).

Definition patch : Type := list update.

Definition perform_google_search (state : ResearchState) : M patch :=
  let query := user_query state in
  print (LogSearching "Google" query) ;;
  out <- serp_search query "google" ;;
  ret [Set_google_output out].

Definition perform_bing_search (state : ResearchState) : M patch :=
  let query := user_query state in
  print (LogSearching "Bing" query) ;;
  out <- serp_search query "bing" ;;
  ret [Set_bing_output out].

Definition perform_reddit_search (state : ResearchState) : M patch :=
  let query := user_query state in
  print (LogSearching "Reddit" query) ;;
  reddit_data <- reddit_search_api query default_date default_sort_by
                                   default_num_of_posts ;;
  print (LogValue reddit_data) ;;
  ret [Set_reddit_output reddit_data].

(** [for idx, u in enumerate(urls, idx): print(...)]. *)
Fixpoint print_urls (idx : Z) (urls : list string) : M unit :=
  match urls with
  | [] => ret tt
  | u :: rest => print (LogSelectedUrl idx u) ;; print_urls (idx + 1) rest
  end.

Definition extract_reddit_urls (state : ResearchState) : M patch :=
  let query := user_query state in
  let reddit_raw := reddit_output state in
  if negb (truthy_opt reddit_raw) then
    ret [Set_chosen_reddit_urls (Some [])]
  else
    let prompts := reddit_url_analysis_msgs query reddit_raw in
    urls <- try_except
              (urls <- structured_llm_invoke prompts ;;
               print LogSelectedUrls ;;
               print_urls 1 urls ;;
               ret urls)
              (fun e => print (LogUrlExtractionError e) ;; ret []) ;;
    ret [Set_chosen_reddit_urls (Some urls)].

(** [posts or []]. *)
Definition or_empty_list (posts : option json) : json :=
  match posts with
  | Some v => if truthy v then v else JList []
  | None => JList []
  end.

Definition fetch_reddit_posts (state : ResearchState) : M patch :=
  let urls := chosen_reddit_urls state in
  match urls with
  | None | Some [] =>
      print LogNoUrlsToFetch ;;
      ret [Set_reddit_posts_data (Some (JList []))]
  | Some (u :: us) =>
      print (LogFetching (Z.of_nat (List.length (u :: us)))) ;;
      posts <- reddit_post_retrieval (u :: us) default_days_back
                                     default_load_all_replies
                                     default_comment_limit ;;
      (if truthy_opt posts
       then print (LogRetrieved (py_len (or_empty_list posts)))
       else print LogRetrievalFailed) ;;
      ret [Set_reddit_posts_data (Some (or_empty_list posts))]
  end.

Definition analyze_google_data (state : ResearchState) : M patch :=
  print (LogAnalysis "Google") ;;
  let query := user_query state in
  let google_content := google_output state in
  response <- llm_invoke (google_analysis_msgs query google_content) ;;
  ret [Set_google_summary (Some response)].

Definition analyze_bing_data (state : ResearchState) : M patch :=
  print (LogAnalysis "Bing") ;;
  let query := user_query state in
  let bing_content := bing_output state in
  response <- llm_invoke (bing_analysis_msgs query bing_content) ;;
  ret [Set_bing_summary (Some response)].

Definition analyze_reddit_data (state : ResearchState) : M patch :=
  print (LogAnalysis "Reddit") ;;
  let query := user_query state in
  let reddit_raw := reddit_output state in
  let reddit_posts := reddit_posts_data state in
  response <- llm_invoke (reddit_discussion_msgs query reddit_raw reddit_posts) ;;
  ret [Set_reddit_summary (Some response)].

Definition combine_insights (state : ResearchState) : M patch :=
  print LogSynthesis ;;
  let query := user_query state in
  final <- llm_invoke (synthesis_msgs query (google_summary state)
                                      (bing_summary state)
                                      (reddit_summary state)) ;;
  ret [Set_final_summary (Some final);
       Add_messages [mkMessage "assistant" final]].

(** *** Graph construction *)

Definition START : string := "__start__".
Definition END : string := "__end__".

(** [workflow.add_node(name, function)]. *)
Definition nodes : list (string * (ResearchState -> M patch)) :=
  [("google_search"%string, perform_google_search);
   ("bing_search"%string, perform_bing_search);
   ("reddit_search"%string, perform_reddit_search);
   ("extract_reddit_urls"%string, extract_reddit_urls);
   ("fetch_reddit_posts"%string, fetch_reddit_posts);
   ("analyze_google"%string, analyze_google_data);
   ("analyze_bing"%string, analyze_bing_data);
   ("analyze_reddit"%string, analyze_reddit_data);
   ("synthesize_results"%string, combine_insights)].

(** [workflow.add_edge(source, target)]. *)
Definition edges : list (string * string) :=
  [(START, "google_search"%string);
   (START, "bing_search"%string);
   (START, "reddit_search"%string);
   ("google_search"%string, "extract_reddit_urls"%string);
   ("bing_search"%string, "extract_reddit_urls"%string);
   ("reddit_search"%string, "extract_reddit_urls"%string);
   ("extract_reddit_urls"%string, "fetch_reddit_posts"%string);
   ("fetch_reddit_posts"%string, "analyze_google"%string);
   ("fetch_reddit_posts"%string, "analyze_bing"%string);
   ("fetch_reddit_posts"%string, "analyze_reddit"%string);
   ("analyze_google"%string, "synthesize_results"%string);
   ("analyze_bing"%string, "synthesize_results"%string);
   ("analyze_reddit"%string, "synthesize_results"%string);
   ("synthesize_results"%string, END)].

(** *** The graph engine

    The engine that [workflow.compile()] returns is an external library.
    It is modelled as the program relies on it: a node runs once, after
    every node with an edge into it has run; the dict it returns is merged
    into the state field by field, the last write winning, [messages]
    being appended to; an exception escaping a node ends the run.  The
    nodes the engine may run side by side (the three searches, the three
    analyses) write different fields and read none that a sibling writes,
    so running them one after the other, in every order the edges allow,
    covers what it does. *)

Definition apply_update (s : ResearchState) (u : update) : ResearchState :=
  match u with
  | Set_google_output v =>
      mkState (messages s) (user_query s) v (bing_output s) (reddit_output s)
              (chosen_reddit_urls s) (reddit_posts_data s) (google_summary s)
              (bing_summary s) (reddit_summary s) (final_summary s)
  | Set_bing_output v =>
      mkState (messages s) (user_query s) (google_output s) v (reddit_output s)
              (chosen_reddit_urls s) (reddit_posts_data s) (google_summary s)
              (bing_summary s) (reddit_summary s) (final_summary s)
  | Set_reddit_output v =>
      mkState (messages s) (user_query s) (google_output s) (bing_output s) v
              (chosen_reddit_urls s) (reddit_posts_data s) (google_summary s)
              (bing_summary s) (reddit_summary s) (final_summary s)
  | Set_chosen_reddit_urls v =>
      mkState (messages s) (user_query s) (google_output s) (bing_output s)
              (reddit_output s) v (reddit_posts_data s) (google_summary s)
              (bing_summary s) (reddit_summary s) (final_summary s)
  | Set_reddit_posts_data v =>
      mkState (messages s) (user_query s) (google_output s) (bing_output s)
              (reddit_output s) (chosen_reddit_urls s) v (google_summary s)
              (bing_summary s) (reddit_summary s) (final_summary s)
  | Set_google_summary v =>
      mkState (messages s) (user_query s) (google_output s) (bing_output s)
              (reddit_output s) (chosen_reddit_urls s) (reddit_posts_data s) v
              (bing_summary s) (reddit_summary s) (final_summary s)
  | Set_bing_summary v =>
      mkState (messages s) (user_query s) (google_output s) (bing_output s)
              (reddit_output s) (chosen_reddit_urls s) (reddit_posts_data s)
              (google_summary s) v (reddit_summary s) (final_summary s)
  | Set_reddit_summary v =>
      mkState (messages s) (user_query s) (google_output s) (bing_output s)
              (reddit_output s) (chosen_reddit_urls s) (reddit_posts_data s)
              (google_summary s) (bing_summary s) v (final_summary s)
  | Set_final_summary v =>
      mkState (messages s) (user_query s) (google_output s) (bing_output s)
              (reddit_output s) (chosen_reddit_urls s) (reddit_posts_data s)
              (google_summary s) (bing_summary s) (reddit_summary s) v
  | Add_messages ms =>
      mkState (messages s ++ ms) (user_query s) (google_output s)
              (bing_output s) (reddit_output s) (chosen_reddit_urls s)
              (reddit_posts_data s) (google_summary s) (bing_summary s)
              (reddit_summary s) (final_summary s)
  end.

Definition apply_patch (s : ResearchState) (p : patch) : ResearchState :=
  fold_left apply_update p s.

Definition mem (n : string) (l : list string) : bool :=
  existsb (String.eqb n) l.

(** The sources of the edges into [n]. *)
Definition predecessors (n : string) : list string :=
  map fst (filter (fun e => String.eqb (snd e) n) edges).

(** A run in progress: the shared state, the nodes that have completed
    (most recent first) and the world. *)
Record config : Type := mkConfig {
  state_of : ResearchState;
  completed : list string;
  world_of : world
}.

(** [n] may run: it has not run yet and everything it depends on has. *)
Definition enabled (done : list string) (n : string) : bool :=
  negb (mem n done)
  && forallb (fun p => String.eqb p START || mem p done) (predecessors n).

(** One node runs to completion and its patch is merged. *)
Inductive step : config -> config -> Prop :=
| step_node (n : string) (f : ResearchState -> M patch) (c : config)
            (p : patch) (w' : world) :
    In (n, f) nodes ->
    enabled (completed c) n = true ->
    f (state_of c) (world_of c) = (Ok p, w') ->
    step c (mkConfig (apply_patch (state_of c) p) (n :: completed c) w').

(** The configurations a run passes through. *)
Inductive reachable (c0 : config) : config -> Prop :=
| reach_start : reachable c0 c0
| reach_step (c c' : config) : reachable c0 c -> step c c' -> reachable c0 c'.

(** The state [start_agent] builds for a query. *)
Definition initial_state (query : string) : ResearchState :=
  mkState [mkMessage "user" query] (Some query)
          None None None None None None None None None.

Definition initial_config (query : string) (w : world) : config :=
  mkConfig (initial_state query) [] w.

Fixpoint find_node (n : string)
         (table : list (string * (ResearchState -> M patch)))
  : option (ResearchState -> M patch) :=
  match table with
  | [] => None
  | (k, f) :: rest => if String.eqb k n then Some f else find_node n rest
  end.

(** Runs the nodes named in [order], one after the other; [None] when the
    order names an unknown node or one that is not enabled, [Raise] when a
    node lets an exception escape. *)
Fixpoint run_order (order : list string) (c : config)
  : option (outcome config * world) :=
  match order with
  | [] => Some (Ok c, world_of c)
  | n :: rest =>
      match find_node n nodes with
      | None => None
      | Some f =>
          if enabled (completed c) n then
            match f (state_of c) (world_of c) with
            | (Ok p, w') =>
                run_order rest
                  (mkConfig (apply_patch (state_of c) p) (n :: completed c) w')
            | (Raise e, w') => Some (Raise e, w')
            end
          else None
      end
  end.

(** A schedule of the whole graph that respects every edge. *)
Definition schedule : list string :=
  ["google_search"%string; "bing_search"%string; "reddit_search"%string;
   "extract_reddit_urls"%string; "fetch_reddit_posts"%string;
   "analyze_google"%string; "analyze_bing"%string; "analyze_reddit"%string;
   "synthesize_results"%string].

(** [compiled_graph.invoke(state)] under that schedule. *)
Definition invoke (query : string) (w : world)
  : option (outcome config * world) :=
  run_order schedule (initial_config query w).

End Main.
Export Main.

(* ===================================================================== *)
(** ** Vocabulary of the properties *)
(* ===================================================================== *)

Module Spec.

(** The provider credential is present (and not the empty string). *)
Definition has_api_key (w : world) (k : string) : Prop :=
  environ w api_key_var = Some k /\ k <> EmptyString.

(** The credential is absent from the environment, or empty:
    [not api_key]. *)
Definition no_api_key (w : world) : Prop :=
  truthy_str (environ w api_key_var) = false.

(** The status a poll observes: the [status] member of an object reply;
    nothing when the request failed or the reply is no object. *)
Definition status_of (r : outcome json) : option json :=
  match r with
  | Ok (JDict fields) => lookup "status" fields
  | _ => None
  end.

Definition reports (r : outcome json) (s : string) : bool :=
  match status_of r with
  | Some (JStr t) => String.eqb t s
  | _ => false
  end.

(** A terminal status, [ready] or [failed], is observed. *)
Definition terminal (r : outcome json) : bool :=
  reports r "ready" || reports r "failed".

(** A length [time.sleep] accepts: not negative, and within the clock's
    range. *)
Definition can_sleep (seconds : Z) : Prop :=
  (0 <= seconds <= max_sleep_seconds)%Z.

(** What one polling round does besides printing. *)
Definition poll_and_sleep (req : request) (interval : Z) : list event :=
  [EvHttp req; EvSleep interval].

(** The world differs from another only by the effects performed. *)
Definition same_outside (w w' : world) : Prop :=
  environ w' = environ w /\ provider w' = provider w
  /\ model_text w' = model_text w /\ model_urls w' = model_urls w.

(** [w'] is [w] after the events [evs]: they were appended to the trace,
    and each request and each model call was counted. *)
Definition extends (w w' : world) (evs : list event) : Prop :=
  same_outside w w'
  /\ trace w' = trace w ++ evs
  /\ sent w' = sent w + List.length (filter is_http evs)
  /\ asked w' = asked w + List.length (filter is_model evs).

(** [m] run in [w] raises [e] before any network round trip. *)
Definition raises_before_network {A : Type} (m : M A) (w : world) (e : exn) : Prop :=
  exists w' evs, m w = (Raise e, w') /\ extends w w' evs /\ filter is_http evs = [].

(** In the dict [r], the member [count_key] is the length of the list
    member [list_key]. *)
Definition count_matches (r : json) (list_key count_key : string) : Prop :=
  exists fields items,
    r = JDict fields
    /\ lookup list_key fields = Some (JList items)
    /\ lookup count_key fields = Some (JNum (Z.of_nat (List.length items))).

(** The request a SERP search sends for a target base URL. *)
Definition serp_request (api_key base query : string) : request :=
  mkRequest POST serp_api_url (api_headers api_key) [] (Some (serp_payload base query)).

(** The member of an object under a key, if any. *)
Definition member (v : json) (key : string) : option json :=
  match v with
  | JDict fields => lookup key fields
  | _ => None
  end.




(** The prompt [extract_reddit_urls] sends to the model in a state. *)
Definition url_prompt (s : ResearchState) : prompt :=
  reddit_url_analysis_msgs (user_query s) (reddit_output s).

(** The Reddit raw output is present; it is absent when null or empty. *)
Definition has_reddit_output (s : ResearchState) : bool :=
  truthy_opt (reddit_output s).

(** The URL selection of a state degrades: there is no Reddit raw
    output, or the model call raises. *)
Definition url_selection_degrades (s : ResearchState) (w : world) : Prop :=
  has_reddit_output s = false
  \/ exists e, model_urls w (asked w) (url_prompt s) = Raise e.

(** The invariant of the state as the specification words it: a summary
    is populated only if its raw output is not null, and the final summary
    only if the three summaries are populated. *)
Definition summaries_follow_raw_outputs (s : ResearchState) : Prop :=
  (google_summary s <> None -> google_output s <> None)
  /\ (bing_summary s <> None -> bing_output s <> None)
  /\ (reddit_summary s <> None -> reddit_output s <> None)
  /\ (final_summary s <> None ->
      google_summary s <> None /\ bing_summary s <> None
      /\ reddit_summary s <> None).

(** A property of the state holds at every point of every run that
    [start_agent] starts. *)
Definition throughout_every_run (P : ResearchState -> Prop) : Prop :=
  forall (query : string) (w : world) (c : config),
    reachable (initial_config query w) c -> P (state_of c).

(** What the graph guarantees instead: a summary is populated only once
    the search node of its source has completed (and so has written the
    raw output, be it null), followed by [extract_reddit_urls] and
    [fetch_reddit_posts]; the final summary only once the three summaries
    are populated. *)
Definition summaries_follow_searches (c : config) : Prop :=
  (google_summary (state_of c) <> None ->
   In "google_search"%string (completed c)
   /\ In "extract_reddit_urls"%string (completed c)
   /\ In "fetch_reddit_posts"%string (completed c))
  /\ (bing_summary (state_of c) <> None ->
      In "bing_search"%string (completed c)
      /\ In "extract_reddit_urls"%string (completed c)
      /\ In "fetch_reddit_posts"%string (completed c))
  /\ (reddit_summary (state_of c) <> None ->
      In "reddit_search"%string (completed c)
      /\ In "extract_reddit_urls"%string (completed c)
      /\ In "fetch_reddit_posts"%string (completed c))
  /\ (final_summary (state_of c) <> None ->
      google_summary (state_of c) <> None
      /\ bing_summary (state_of c) <> None
      /\ reddit_summary (state_of c) <> None).

(** Every completed node has its dependencies completed. *)
Definition dependencies_completed (done : list string) : Prop :=
  forall p n, In (p, n) edges -> p <> START -> In n done -> In p done.

(** The bookkeeping behind [summaries_follow_searches]. *)
Definition graph_invariant (c : config) : Prop :=
  dependencies_completed (completed c)
  /\ (google_summary (state_of c) <> None
      <-> In "analyze_google"%string (completed c))
  /\ (bing_summary (state_of c) <> None
      <-> In "analyze_bing"%string (completed c))
  /\ (reddit_summary (state_of c) <> None
      <-> In "analyze_reddit"%string (completed c))
  /\ (final_summary (state_of c) <> None
      -> In "synthesize_results"%string (completed c)).

Definition no_network (evs : list event) : Prop :=
  filter is_http evs = [].

End Spec.
Export Spec.

(* ===================================================================== *)
(** ** Example worlds *)
(* ===================================================================== *)

Module Examples.

Definition env_with_key : string -> option string :=
  fun name => if String.eqb name "BRIGHTDATA_API_KEY" then Some "k3y"%string else None.

Definition env_without_key : string -> option string := fun _ => None.

Definition status_reply (s : string) : outcome json :=
  Ok (JDict [("status"%string, JStr s)]).

(** A language model that answers every prompt. *)
Definition model_text_ok : nat -> prompt -> outcome string :=
  fun _ _ => Ok "summary"%string.

Definition model_urls_ok : nat -> prompt -> outcome (list string) :=
  fun _ _ => Ok ["https://www.reddit.com/r/a/1"%string].

Definition model_urls_down : nat -> prompt -> outcome (list string) :=
  fun _ _ => Raise OtherException.

Definition start_world (env : string -> option string)
           (net : nat -> request -> outcome json)
           (urls : nat -> prompt -> outcome (list string)) : world :=
  mkWorld env net model_text_ok urls 0 0 [].

(** A provider whose snapshot never leaves [running]. *)
Definition always_running : nat -> request -> outcome json :=
  fun _ _ => status_reply "running".

(** A provider that is unreachable. *)
Definition unreachable : nat -> request -> outcome json :=
  fun _ _ => Raise RequestException.

(** A provider whose third poll observes the given status, after a
    transport error and a [running]. *)
Definition third_poll (s : string) : nat -> request -> outcome json :=
  fun n _ =>
    match n with
    | 0 => Raise RequestException
    | 1 => status_reply "running"
    | _ => status_reply s
    end.

(** A provider that answers every request with the empty object. *)
Definition empty_object : nat -> request -> outcome json :=
  fun _ _ => Ok (JDict []).



(** A provider that answers the [n]-th request with the [n]-th reply of a
    script, and is unreachable afterwards. *)
Definition scripted (replies : list (outcome json)) : nat -> request -> outcome json :=
  fun n _ => nth n replies (Raise RequestException).

Definition snapshot_started : outcome json :=
  Ok (JDict [("snapshot_id"%string, JStr "s_1")]).

(** A download in which one entry is no object. *)
Definition mixed_payload : list json :=
  [JDict [("title"%string, JStr "T"); ("url"%string, JStr "https://www.reddit.com/r/a/1");
          ("comment_id"%string, JStr "c1"); ("comment"%string, JStr "nice");
          ("date_posted"%string, JStr "2024-01-01")];
   JStr "oops";
   JDict [("title"%string, JStr "U")]].

(** Trigger accepted, snapshot ready at the first poll, download of
    [mixed_payload]. *)
Definition snapshot_world : world :=
  start_world env_with_key
              (scripted [snapshot_started; status_reply "ready"; Ok (JList mixed_payload)])
              model_urls_ok.

(** A state in which the Reddit search has failed. *)
Definition reddit_failed_state : ResearchState :=
  mkState [mkMessage "user" "q"] (Some "q"%string)
          None None None None None None None None None.

(** A run in which the three searches are over, Reddit's having failed. *)
Definition searches_done : config :=
  mkConfig reddit_failed_state
           ["reddit_search"%string; "bing_search"%string; "google_search"%string]
           (start_world env_with_key unreachable model_urls_down).

(** The configuration a whole run ends in, [c] when it does not end. *)
Definition final_config (r : option (outcome config * world)) (c : config) : config :=
  match r with
  | Some (Ok c', _) => c'
  | _ => c
  end.

(** The run for a query when the provider is unreachable. *)
Definition degraded_run : config :=
  final_config (invoke "q" (start_world env_with_key unreachable model_urls_ok))
               (initial_config "q" (start_world env_with_key unreachable model_urls_ok)).

(** A download of three comments. *)
Definition three_comments : list json :=
  [JDict [("comment_id"%string, JStr "c1"); ("comment"%string, JStr "good");
          ("date_posted"%string, JStr "2024-01-01")];
   JDict [("comment_id"%string, JStr "c2"); ("comment"%string, JStr "bad");
          ("date_posted"%string, JStr "2024-01-02")];
   JDict [("comment_id"%string, JStr "c3"); ("comment"%string, JStr "fine");
          ("date_posted"%string, JStr "2024-01-03")]].

Definition comments_world : world :=
  start_world env_with_key
              (scripted [snapshot_started; status_reply "ready"; Ok (JList three_comments)])
              model_urls_ok.

(** A state in which one Reddit URL was chosen. *)
Definition one_url_state : ResearchState :=
  mkState [mkMessage "user" "q"] (Some "q"%string) None None None
          (Some ["https://www.reddit.com/r/a/1"%string])
          None None None None None.

(** Trigger accepted, snapshot ready at the first poll, and a download
    that is an error object instead of an array. *)
Definition error_object_world : world :=
  start_world env_with_key
              (scripted [snapshot_started; status_reply "ready";
                         Ok (JDict [("error"%string, JStr "dataset is empty")])])
              model_urls_ok.

End Examples.
Export Examples.

(* ===================================================================== *)
(** ** Further vocabulary *)
(* ===================================================================== *)

Module Behaviour.

(** What a fail-closed call makes of a reply: the body, or [None] when
    the request failed. *)
Definition body_or_none (r : outcome json) : json :=
  match r with
  | Ok d => d
  | Raise _ => JNull
  end.

(** The request [_send_api_request] sends. *)
Definition api_request (api_key : string) (url : text)
           (params : list (string * string)) (payload : option json) : request :=
  mkRequest POST url (api_headers api_key) params payload.

(** The poll of index [n] is the first to observe a terminal status,
    [status]. *)
Definition first_terminal_at (w : world) (req : request) (n : nat)
           (status : string) : Prop :=
  (forall i, i < n -> terminal (provider w (sent w + i) req) = false)
  /\ reports (provider w (sent w + n) req) status = true
  /\ (status = "ready"%string \/ status = "failed"%string).

(** None of the first [n] polls observes a terminal status. *)
Definition none_terminal (w : world) (req : request) (n : nat) : Prop :=
  forall i, i < n -> terminal (provider w (sent w + i) req) = false.

Definition is_post (e : event) : bool :=
  match e with
  | EvHttp r => match meth r with POST => true | GET => false end
  | _ => false
  end.

(** The seconds slept in a trace. *)
Fixpoint slept (evs : list event) : Z :=
  match evs with
  | [] => 0%Z
  | EvSleep seconds :: rest => (seconds + slept rest)%Z
  | _ :: rest => slept rest
  end.


(** The world once [n] more requests have been answered. *)
Definition skip_requests (w : world) (n : nat) : world :=
  mkWorld (environ w) (provider w) (model_text w) (model_urls w)
          (sent w + n) (asked w) (trace w).

(** The reply to a trigger request gives no snapshot to wait for: the
    request failed, the body is falsy, or it is an object whose
    [snapshot_id] is missing or falsy. *)
Definition trigger_unusable (r : outcome json) : Prop :=
  truthy (body_or_none r) = false
  \/ exists fields,
      r = Ok (JDict fields)
      /\ truthy (get_default fields "snapshot_id" JNull) = false.

(** The reply to a trigger request is an object naming the snapshot
    [id]. *)
Definition trigger_accepted (r : outcome json) (id : json) : Prop :=
  exists fields,
    r = Ok (JDict fields)
    /\ lookup "snapshot_id" fields = Some id
    /\ truthy id = true.

(** The record is an object with exactly the given keys, in order. *)
Definition has_keys (keys : list string) (v : json) : Prop :=
  exists fields, v = JDict fields /\ map fst fields = keys.

(** The trigger request of a Reddit comment retrieval. *)
Definition comments_trigger (api_key : string) (urls : list string)
           (days_back : Z) (load_all_replies : bool) (comment_limit : string)
  : request :=
  api_request api_key trigger_url posts_params
              (Some (posts_payload urls days_back load_all_replies comment_limit)).

(** The trigger request of a Reddit keyword search. *)
Definition search_trigger (api_key : string) (keyword : option string)
           (date sort_by : string) (num_of_posts : Z) : request :=
  api_request api_key trigger_url search_params
              (Some (search_payload keyword date sort_by num_of_posts)).

(** The names of the nodes of the graph. *)
Definition node_names : list string := map fst nodes.

(** A field written by one node is null until that node has completed;
    the URL list and the post data are non-null from then on. *)
Definition fields_follow_nodes (c : config) : Prop :=
  (google_output (state_of c) <> None -> In "google_search"%string (completed c))
  /\ (bing_output (state_of c) <> None -> In "bing_search"%string (completed c))
  /\ (reddit_output (state_of c) <> None -> In "reddit_search"%string (completed c))
  /\ (chosen_reddit_urls (state_of c) <> None
      <-> In "extract_reddit_urls"%string (completed c))
  /\ (reddit_posts_data (state_of c) <> None
      <-> In "fetch_reddit_posts"%string (completed c)).

(** The query is kept, and the message log is the user's message,
    followed by the final summary as one assistant message once there is
    a final summary. *)
Definition log_follows_summary (query : string) (s : ResearchState) : Prop :=
  user_query s = Some query
  /\ ((final_summary s = None /\ messages s = [mkMessage "user" query])
      \/ exists final,
          final_summary s = Some final
          /\ messages s = [mkMessage "user" query; mkMessage "assistant" final]).

(** Every request to the provider fails. *)
Definition provider_down (w : world) : Prop :=
  forall n r, exists e, provider w n r = Raise e.

(** The model answers every free-text call. *)
Definition model_answers (w : world) : Prop :=
  forall n p, exists t, model_text w n p = Ok t.

(** The credential is set, the provider is down and the model answers. *)
Definition degraded (w : world) (k : string) : Prop :=
  has_api_key w k /\ provider_down w /\ model_answers w.

(** [w'] is a degraded world reached from [w] by [a] requests and [b]
    model calls. *)
Definition reached (w w' : world) (k : string) (a b : nat) : Prop :=
  degraded w' k /\ sent w' = sent w + a /\ asked w' = asked w + b.

(** A character that can stand in the query part of a URL without
    ending or splitting it: a letter, a digit, one of [_.-~], or the [+]
    and [%] of the encoding. *)
Definition url_safe (c : ascii) : bool :=
  always_safe c || Ascii.eqb c "+" || Ascii.eqb c "%".

(** The value of a hexadecimal digit as [hex_digit] writes it. *)
Definition hex_value (c : ascii) : nat :=
  let n := nat_of_ascii c in
  if (48 <=? n) && (n <=? 57) then n - 48 else n - 55.

(** The inverse of [quote_plus]: [+] is a space, [%XY] the byte of
    hexadecimal value [XY]. *)
Fixpoint unquote_plus (s : string) : string :=
  match s with
  | EmptyString => EmptyString
  | String c rest =>
      if Ascii.eqb c "+" then String " " (unquote_plus rest)
      else if Ascii.eqb c "%" then
        match rest with
        | String a (String b rest') =>
            String (ascii_of_nat (16 * hex_value a + hex_value b))
                   (unquote_plus rest')
        | _ => String c (unquote_plus rest)
        end
      else String c (unquote_plus rest)
  end.

End Behaviour.
Export Behaviour.

(* ===================================================================== *)
(** ** Basic facts about traces *)
(* ===================================================================== *)

Lemma actions_app (t u : list event) : actions (t ++ u) = actions t ++ actions u.
Proof. unfold actions. apply filter_app. Qed.

Lemma same_outside_refl (w : world) : same_outside w w.
Proof. repeat split. Qed.

Lemma same_outside_trans (w1 w2 w3 : world) :
  same_outside w1 w2 -> same_outside w2 w3 -> same_outside w1 w3.
Proof.
  unfold same_outside. intros (A & B & C & D) (A' & B' & C' & D').
  repeat split; congruence.
Qed.

Lemma extends_refl (w : world) : extends w w [].
Proof.
  unfold extends. split; [apply same_outside_refl|].
  cbn. rewrite app_nil_r. repeat split; lia.
Qed.

Lemma extends_trans (w1 w2 w3 : world) (e1 e2 : list event) :
  extends w1 w2 e1 -> extends w2 w3 e2 -> extends w1 w3 (e1 ++ e2).
Proof.
  intros (O1 & T1 & S1 & A1) (O2 & T2 & S2 & A2).
  split; [eapply same_outside_trans; eassumption|].
  rewrite !filter_app, !length_app, T2, T1, S2, S1, A2, A1, app_assoc.
  repeat split; lia.
Qed.

(** Printing is neither a request nor a model call. *)
Lemma http_of_actions (t : list event) :
  filter is_http (actions t) = filter is_http t.
Proof.
  induction t as [|e t IH]; [reflexivity|].
  destruct e; cbn; unfold actions in IH; rewrite ?IH; reflexivity.
Qed.

Lemma model_of_actions (t : list event) :
  filter is_model (actions t) = filter is_model t.
Proof.
  induction t as [|e t IH]; [reflexivity|].
  destruct e; cbn; unfold actions in IH; rewrite ?IH; reflexivity.
Qed.

(** Closes [extends w w' ?evs] when [w'] is [w] with explicit events
    appended. *)
Ltac extends_by_trace :=
  unfold extends, same_outside;
  cbn [trace sent asked environ provider model_text model_urls];
  split; [repeat split
         | split; [rewrite <- ?app_assoc; reflexivity
                  | split; cbn; lia]].

Lemma eq_str_get_default_reports (fields : list (string * json)) (s : string) :
  eq_str (get_default fields "status" JNull) s = reports (Ok (JDict fields)) s.
Proof.
  unfold reports, status_of, get_default.
  destruct (lookup "status" fields) as [v|]; [|reflexivity].
  destruct v; reflexivity.
Qed.

Lemma sleep_in_range (seconds : Z) :
  can_sleep seconds -> sleep seconds = emit (EvSleep seconds).
Proof.
  unfold can_sleep, sleep. intros [Hlo Hhi].
  destruct (Z.ltb_spec seconds 0); [lia|].
  destruct (Z.ltb_spec max_sleep_seconds seconds); [lia | reflexivity].
Qed.

Lemma can_sleep_default : can_sleep default_interval.
Proof. unfold can_sleep, default_interval, max_sleep_seconds. lia. Qed.

(** One polling round that observes no terminal status: the loop goes on,
    one request was sent and one sleep taken. *)
Lemma attempt_body_nonterminal (req : request) (max_retries interval a : Z)
      (w : world) :
  can_sleep interval ->
  terminal (provider w (sent w) req) = false ->
  exists w' evs,
    attempt_body req max_retries interval a w = (Ok None, w')
    /\ extends w w' evs
    /\ actions evs = poll_and_sleep req interval.
Proof.
  intros Hsleep Hnt. unfold terminal in Hnt. apply orb_false_iff in Hnt.
  destruct Hnt as [Hr Hf].
  unfold attempt_body. rewrite (sleep_in_range interval Hsleep).
  unfold poll_once, try_except, bind, print, emit, http, ret.
  cbn [trace sent environ provider model_text model_urls asked].
  destruct (provider w (sent w) req) as [v|e] eqn:Hp.
  - destruct v as [| b | n | s | items | fields];
      try (cbn; do 2 eexists; split; [reflexivity|];
           split; [extends_by_trace | reflexivity]).
    cbn [py_get py_get_or ret].
    rewrite !eq_str_get_default_reports, Hr, Hf.
    destruct (reports (Ok (JDict fields)) "running");
      cbn; do 2 eexists; (split; [reflexivity|]);
      (split; [extends_by_trace | reflexivity]).
  - cbn. do 2 eexists; split; [reflexivity|].
    split; [extends_by_trace | reflexivity].
Qed.

(** One polling round that observes [ready] or [failed]: the function
    returns at once, [True] for [ready] and [False] for [failed], after the
    request and without sleeping. *)
Lemma attempt_body_terminal (req : request) (max_retries interval a : Z)
      (w : world) (status : string) :
  reports (provider w (sent w) req) status = true ->
  status = "ready"%string \/ status = "failed"%string ->
  exists w' evs,
    attempt_body req max_retries interval a w
    = (Ok (Some (String.eqb status "ready")), w')
    /\ extends w w' evs
    /\ actions evs = [EvHttp req].
Proof.
  intros Hrep Hst.
  unfold attempt_body, poll_once, try_except, bind, print, emit, http, ret.
  cbn [trace sent environ provider model_text model_urls asked].
  destruct (provider w (sent w) req) as [v|e] eqn:Hp;
    [destruct v as [| b | n | s | items | fields]|]; try discriminate Hrep.
  cbn [py_get py_get_or ret].
  rewrite !eq_str_get_default_reports.
  assert (Hex : reports (Ok (JDict fields)) "ready" = String.eqb status "ready").
  { unfold reports in *. destruct (status_of (Ok (JDict fields))) as [[]|];
      try discriminate Hrep.
    apply String.eqb_eq in Hrep. subst s. reflexivity. }
  destruct Hst as [-> | ->].
  - rewrite Hrep. cbn. do 2 eexists; split; [reflexivity|].
    split; [extends_by_trace | reflexivity].
  - rewrite Hex, Hrep. cbn. do 2 eexists; split; [reflexivity|].
    split; [extends_by_trace | reflexivity].
Qed.

(** The loop over attempts none of which observes a terminal status. *)
Lemma for_each_nonterminal (req : request) (max_retries interval : Z)
      (attempts : list Z) :
  can_sleep interval ->
  forall w : world,
    (forall i, i < List.length attempts ->
               terminal (provider w (sent w + i) req) = false) ->
    exists w' evs,
      for_each attempts (attempt_body req max_retries interval) w = (Ok None, w')
      /\ extends w w' evs
      /\ actions evs
         = List.concat (repeat (poll_and_sleep req interval) (List.length attempts)).
Proof.
  intros Hsleep.
  induction attempts as [|a rest IH]; intros w Hnt.
  - exists w, []. repeat split; try apply extends_refl.
  - destruct (attempt_body_nonterminal req max_retries interval a w Hsleep)
      as (w1 & e1 & Hrun & Hext & Hact).
    { specialize (Hnt 0). rewrite Nat.add_0_r in Hnt. apply Hnt. cbn. lia. }
    assert (Hsent : sent w1 = S (sent w)).
    { destruct Hext as (_ & _ & -> & _).
      rewrite <- http_of_actions, Hact. cbn. lia. }
    destruct (IH w1) as (w2 & e2 & Hrun2 & Hext2 & Hact2).
    { intros i Hi. destruct Hext as ((_ & -> & _) & _). rewrite Hsent.
      replace (S (sent w) + i) with (sent w + S i) by lia.
      apply Hnt. cbn. lia. }
    exists w2, (e1 ++ e2). split; [|split].
    + cbn [for_each]. unfold bind at 1. rewrite Hrun. exact Hrun2.
    + eapply extends_trans; eassumption.
    + rewrite actions_app, Hact2, Hact. reflexivity.
Qed.

(** The loop when the attempt of index [n] is the first to observe a
    terminal status. *)
Lemma for_each_terminal_at (req : request) (max_retries interval : Z)
      (status : string) (attempts : list Z) :
  forall (n : nat) (w : world),
    n = 0 \/ can_sleep interval ->
    n < List.length attempts ->
    (forall i, i < n -> terminal (provider w (sent w + i) req) = false) ->
    reports (provider w (sent w + n) req) status = true ->
    status = "ready"%string \/ status = "failed"%string ->
    exists w' evs,
      for_each attempts (attempt_body req max_retries interval) w
      = (Ok (Some (String.eqb status "ready")), w')
      /\ extends w w' evs
      /\ actions evs
         = List.concat (repeat (poll_and_sleep req interval) n) ++ [EvHttp req].
Proof.
  induction attempts as [|a rest IH]; intros n w Hsleep Hn Hnt Hrep Hst.
  - cbn in Hn. lia.
  - destruct n as [|n].
    + rewrite Nat.add_0_r in Hrep.
      destruct (attempt_body_terminal req max_retries interval a w status Hrep Hst)
        as (w1 & e1 & Hrun & Hext & Hact).
      exists w1, e1. split; [|split]; try assumption.
      cbn [for_each]. unfold bind at 1. rewrite Hrun. reflexivity.
    + assert (Hcan : can_sleep interval).
      { destruct Hsleep as [H0 | Hcan]; [discriminate H0 | exact Hcan]. }
      destruct (attempt_body_nonterminal req max_retries interval a w Hcan)
        as (w1 & e1 & Hrun & Hext & Hact).
      { specialize (Hnt 0). rewrite Nat.add_0_r in Hnt. apply Hnt. lia. }
      assert (Hsent : sent w1 = S (sent w)).
      { destruct Hext as (_ & _ & -> & _).
        rewrite <- http_of_actions, Hact. cbn. lia. }
      assert (Hprov : provider w1 = provider w) by apply Hext.
      destruct (IH n w1) as (w2 & e2 & Hrun2 & Hext2 & Hact2);
        try assumption.
      { right. exact Hcan. }
      { cbn in Hn. lia. }
      { intros i Hi. rewrite Hprov, Hsent.
        replace (S (sent w) + i) with (sent w + S i) by lia.
        apply Hnt. lia. }
      { rewrite Hprov, Hsent.
        replace (S (sent w) + n) with (sent w + S n) by lia. exact Hrep. }
      exists w2, (e1 ++ e2). split; [|split].
      * cbn [for_each]. unfold bind at 1. rewrite Hrun. exact Hrun2.
      * eapply extends_trans; eassumption.
      * rewrite actions_app, Hact2, Hact. reflexivity.
Qed.

Lemma range_length (lo hi : Z) : List.length (range lo hi) = Z.to_nat (hi - lo).
Proof. unfold range. now rewrite length_map, length_seq. Qed.

Lemma require_api_key_present (w : world) (k : string) :
  has_api_key w k -> require_api_key w = (Ok k, w).
Proof.
  intros [Henv Hk]. unfold require_api_key, bind, getenv. rewrite Henv.
  destruct (String.eqb k EmptyString) eqn:E; [|reflexivity].
  apply String.eqb_eq in E. contradiction.
Qed.

Lemma require_api_key_absent (w : world) :
  no_api_key w -> require_api_key w = (Raise missing_key, w).
Proof.
  unfold no_api_key, require_api_key, bind, getenv. intros Hno.
  destruct (environ w api_key_var) as [k|]; [|reflexivity].
  cbn in Hno. apply negb_false_iff in Hno. now rewrite Hno.
Qed.

Lemma http_of_rounds (req : request) (interval : Z) (n : nat) :
  List.length (filter is_http (List.concat (repeat (poll_and_sleep req interval) n)))
  = n.
Proof.
  induction n as [|n IH]; [reflexivity|].
  cbn [repeat List.concat poll_and_sleep app filter is_http List.length].
  now rewrite IH.
Qed.

Lemma sleep_of_rounds (req : request) (interval : Z) (n : nat) :
  filter is_sleep (List.concat (repeat (poll_and_sleep req interval) n))
  = repeat (EvSleep interval) n.
Proof.
  induction n as [|n IH]; [reflexivity|].
  cbn [repeat List.concat poll_and_sleep app filter is_sleep].
  now rewrite IH.
Qed.

(** C1. When the credential is present and none of the first
    [max_retries] polls observes [ready] or [failed] (a poll that fails in
    transport or parsing, or whose reply carries another status, observes
    none), [check_snapshot_status] returns [False]; apart from printing it
    did exactly [max_retries] rounds, each one request to the progress
    endpoint followed by a sleep of [interval] seconds, so that a sleep of
    [interval] separates any two consecutive polls.  (The last poll is
    followed by a sleep too.)  The interval is one [time.sleep] accepts,
    as the default 5 is. *)
Theorem check_snapshot_status_times_out
        (w : world) (k : string) (snapshot_id : json)
        (max_retries interval : Z) :
  has_api_key w k ->
  can_sleep interval ->
  (0 <= max_retries)%Z ->
  (forall i, i < Z.to_nat max_retries ->
             terminal (provider w (sent w + i) (progress_request k snapshot_id))
             = false) ->
  exists w' evs,
    check_snapshot_status snapshot_id max_retries interval w = (Ok false, w')
    /\ extends w w' evs
    /\ actions evs
       = List.concat (repeat (poll_and_sleep (progress_request k snapshot_id) interval)
                             (Z.to_nat max_retries))
    /\ Z.of_nat (List.length (filter is_http evs)) = max_retries
    /\ filter is_sleep evs = repeat (EvSleep interval) (Z.to_nat max_retries).
Proof.
  intros Hkey Hsleep Hmax Hnt.
  set (req := progress_request k snapshot_id) in *.
  destruct (for_each_nonterminal req max_retries interval
                                 (range 1 (max_retries + 1)) Hsleep w)
    as (w1 & e1 & Hrun & Hext & Hact).
  { rewrite range_length. intros i Hi. apply Hnt. lia. }
  rewrite range_length in Hact.
  replace (Z.to_nat (max_retries + 1 - 1)) with (Z.to_nat max_retries) in Hact
    by (f_equal; lia).
  eexists. exists (e1 ++ [EvPrint LogTimedOut]).
  split; [|split; [|split; [|split]]].
  - unfold check_snapshot_status, bind at 1.
    rewrite (require_api_key_present w k Hkey).
    fold req. unfold bind at 1. rewrite Hrun.
    unfold bind, print, emit, ret. reflexivity.
  - eapply extends_trans; [exact Hext|]. extends_by_trace.
  - rewrite actions_app, Hact. cbn. now rewrite app_nil_r.
  - rewrite filter_app, length_app, <- http_of_actions, Hact, http_of_rounds.
    cbn. lia.
  - rewrite filter_app. cbn. rewrite app_nil_r.
    replace (filter is_sleep e1) with (filter is_sleep (actions e1)).
    + rewrite Hact. apply sleep_of_rounds.
    + clear. induction e1 as [|e t IH]; [reflexivity|].
      destruct e; cbn; unfold actions in IH; rewrite ?IH; reflexivity.
Qed.

(** Witness of [check_snapshot_status_times_out]: a snapshot that stays
    [running] through the default 60 polls, 5 seconds apart. *)
Lemma check_snapshot_status_times_out_witness :
  exists w' evs,
    check_snapshot_status (JStr "s_1") default_max_retries default_interval
                          (start_world env_with_key always_running model_urls_ok)
    = (Ok false, w')
    /\ extends (start_world env_with_key always_running model_urls_ok) w' evs
    /\ actions evs
       = List.concat (repeat (poll_and_sleep (progress_request "k3y" (JStr "s_1"))
                                             default_interval)
                             (Z.to_nat default_max_retries))
    /\ Z.of_nat (List.length (filter is_http evs)) = default_max_retries
    /\ filter is_sleep evs
       = repeat (EvSleep default_interval) (Z.to_nat default_max_retries).
Proof.
  apply (check_snapshot_status_times_out
           (start_world env_with_key always_running model_urls_ok) "k3y"
           (JStr "s_1") default_max_retries default_interval).
  - split; [reflexivity | discriminate].
  - unfold can_sleep, default_interval, max_sleep_seconds. lia.
  - unfold default_max_retries. lia.
  - intros i _. reflexivity.
Defined.

(** C2. When the credential is present and the poll of index [n] (counted
    from 0, [n] below [max_retries]) is the first to observe a terminal
    status, [check_snapshot_status] returns on that attempt: [True] for
    [ready], [False] for [failed]; apart from printing it did [n] rounds of
    request and sleep and then the request that observed the status, with
    no sleep and no request after it.  When rounds precede that poll
    ([n] above 0), the interval is one [time.sleep] accepts, as the
    default 5 is. *)
Theorem check_snapshot_status_returns_at_terminal
        (w : world) (k : string) (snapshot_id : json)
        (max_retries interval : Z) (n : nat) (status : string) :
  has_api_key w k ->
  n = 0 \/ can_sleep interval ->
  n < Z.to_nat max_retries ->
  (forall i, i < n ->
             terminal (provider w (sent w + i) (progress_request k snapshot_id))
             = false) ->
  reports (provider w (sent w + n) (progress_request k snapshot_id)) status = true ->
  status = "ready"%string \/ status = "failed"%string ->
  exists w' evs,
    check_snapshot_status snapshot_id max_retries interval w
    = (Ok (String.eqb status "ready"), w')
    /\ extends w w' evs
    /\ actions evs
       = List.concat (repeat (poll_and_sleep (progress_request k snapshot_id) interval) n)
         ++ [EvHttp (progress_request k snapshot_id)]
    /\ List.length (filter is_http evs) = S n.
Proof.
  intros Hkey Hsleep Hn Hnt Hrep Hst.
  set (req := progress_request k snapshot_id) in *.
  destruct (for_each_terminal_at req max_retries interval status
                                 (range 1 (max_retries + 1)) n w)
    as (w1 & e1 & Hrun & Hext & Hact); try assumption.
  { rewrite range_length. lia. }
  exists w1, e1. split; [|split; [|split]]; try assumption.
  - unfold check_snapshot_status, bind at 1.
    rewrite (require_api_key_present w k Hkey).
    fold req. unfold bind at 1. rewrite Hrun. reflexivity.
  - rewrite <- http_of_actions, Hact, filter_app, length_app, http_of_rounds.
    cbn. lia.
Qed.

(** Witness of [check_snapshot_status_returns_at_terminal]: the third poll
    observes [failed] after a transport error and a [running]. *)
Lemma check_snapshot_status_returns_at_terminal_witness :
  exists w' evs,
    check_snapshot_status (JStr "s_1") default_max_retries default_interval
                          (start_world env_with_key (third_poll "failed") model_urls_ok)
    = (Ok false, w')
    /\ extends (start_world env_with_key (third_poll "failed") model_urls_ok) w' evs
    /\ actions evs
       = List.concat (repeat (poll_and_sleep (progress_request "k3y" (JStr "s_1"))
                                             default_interval) 2)
         ++ [EvHttp (progress_request "k3y" (JStr "s_1"))]
    /\ List.length (filter is_http evs) = 3.
Proof.
  apply (check_snapshot_status_returns_at_terminal
           (start_world env_with_key (third_poll "failed") model_urls_ok) "k3y"
           (JStr "s_1") default_max_retries default_interval 2 "failed").
  - split; [reflexivity | discriminate].
  - right. unfold can_sleep, default_interval, max_sleep_seconds. lia.
  - unfold default_max_retries. lia.
  - intros i Hi. destruct i as [|[|i]]; [reflexivity | reflexivity | lia].
  - reflexivity.
  - right. reflexivity.
Defined.

(* ===================================================================== *)
(** ** The search adapters *)
(* ===================================================================== *)

Lemma send_api_request_absent (w : world) (url : text)
      (params : list (string * string)) (payload : option json) :
  no_api_key w -> _send_api_request url params payload w = (Raise missing_key, w).
Proof.
  intros Hno. unfold _send_api_request, bind at 1.
  now rewrite (require_api_key_absent w Hno).
Qed.

Lemma pipeline_absent (w : world) (url : text) (params : list (string * string))
      (payload : json) (task_name : string) :
  no_api_key w ->
  _execute_snapshot_pipeline url params payload task_name w = (Raise missing_key, w).
Proof.
  intros Hno. unfold _execute_snapshot_pipeline, bind at 1.
  now rewrite (send_api_request_absent w _ _ _ Hno).
Qed.

Lemma raises_at_once {A : Type} (m : M A) (w : world) (e : exn) :
  m w = (Raise e, w) -> raises_before_network m w e.
Proof.
  intros H. exists w, []. split; [exact H|]. split; [apply extends_refl | reflexivity].
Qed.

Lemma raises_after_print {A : Type} (m : M A) (w : world) (l : log_line) (e : exn) :
  (forall w1, environ w1 = environ w -> m w1 = (Raise e, w1)) ->
  raises_before_network (print l ;; m) w e.
Proof.
  intros H. unfold raises_before_network, bind, print, emit.
  do 2 eexists. split; [apply H; reflexivity|].
  split; [extends_by_trace | reflexivity].
Qed.

Lemma no_api_key_same_environ (w w1 : world) :
  environ w1 = environ w -> no_api_key w -> no_api_key w1.
Proof. unfold no_api_key. intros ->. exact (fun H => H). Qed.

Lemma serp_search_absent (w : world) (q engine : string) :
  no_api_key w ->
  engine = "google"%string \/ engine = "bing"%string ->
  serp_search (Some q) engine w = (Raise missing_key, w).
Proof.
  intros Hno [-> | ->]; unfold serp_search; cbn [assoc base_urls String.eqb];
    cbn; unfold bind at 1;
    now rewrite (send_api_request_absent w _ _ _ Hno).
Qed.

Lemma reddit_search_api_absent (w : world) (kw : option string)
      (date sort_by : string) (n : Z) :
  no_api_key w -> reddit_search_api kw date sort_by n w = (Raise missing_key, w).
Proof.
  intros Hno. unfold reddit_search_api, bind at 1.
  now rewrite (pipeline_absent w _ _ _ _ Hno).
Qed.

(** C9. When [BRIGHTDATA_API_KEY] is absent from the environment (or
    empty), every call that would reach the provider raises the
    configuration error [EnvironmentError] before any request is sent:
    [_send_api_request], [serp_search] for both engines,
    [reddit_search_api], [reddit_post_retrieval] on a non-empty URL list,
    [check_snapshot_status] and [fetch_snapshot_data]; the error is not
    turned into a [None] result.  In a graph run the three search nodes,
    which make the first adapter calls, raise it, and no node completes. *)
Theorem missing_credential_raises_before_network (w : world) :
  no_api_key w ->
  (forall url params payload,
      raises_before_network (_send_api_request url params payload) w missing_key)
  /\ (forall q engine,
         engine = "google"%string \/ engine = "bing"%string ->
         raises_before_network (serp_search (Some q) engine) w missing_key)
  /\ (forall kw date sort_by n,
         raises_before_network (reddit_search_api kw date sort_by n) w missing_key)
  /\ (forall u us days_back load_all_replies comment_limit,
         raises_before_network
           (reddit_post_retrieval (u :: us) days_back load_all_replies comment_limit)
           w missing_key)
  /\ (forall snapshot_id max_retries interval,
         raises_before_network
           (check_snapshot_status snapshot_id max_retries interval) w missing_key)
  /\ (forall snapshot_id file_format,
         raises_before_network (fetch_snapshot_data snapshot_id file_format)
                               w missing_key)
  /\ (forall q,
         raises_before_network (perform_google_search (initial_state q)) w missing_key
         /\ raises_before_network (perform_bing_search (initial_state q)) w missing_key
         /\ raises_before_network (perform_reddit_search (initial_state q)) w missing_key)
  /\ (forall q c, ~ step (initial_config q w) c).
Proof.
  intros Hno.
  assert (Hnodes : forall q,
    raises_before_network (perform_google_search (initial_state q)) w missing_key
    /\ raises_before_network (perform_bing_search (initial_state q)) w missing_key
    /\ raises_before_network (perform_reddit_search (initial_state q)) w missing_key).
  { intros q. split; [|split].
    - unfold perform_google_search. apply raises_after_print. intros w1 Henv.
      unfold bind at 1. cbn [user_query initial_state].
      rewrite serp_search_absent;
        [reflexivity | eauto using no_api_key_same_environ | auto].
    - unfold perform_bing_search. apply raises_after_print. intros w1 Henv.
      unfold bind at 1. cbn [user_query initial_state].
      rewrite serp_search_absent;
        [reflexivity | eauto using no_api_key_same_environ | auto].
    - unfold perform_reddit_search. apply raises_after_print. intros w1 Henv.
      unfold bind at 1.
      rewrite reddit_search_api_absent;
        [reflexivity | eauto using no_api_key_same_environ]. }
  repeat match goal with |- _ /\ _ => split end.
  - intros. apply raises_at_once. now apply send_api_request_absent.
  - intros. apply raises_at_once. now apply serp_search_absent.
  - intros. apply raises_at_once. now apply reddit_search_api_absent.
  - intros. apply raises_at_once. unfold reddit_post_retrieval, bind at 1.
    now rewrite (pipeline_absent w _ _ _ _ Hno).
  - intros. apply raises_at_once. unfold check_snapshot_status, bind at 1.
    now rewrite (require_api_key_absent w Hno).
  - intros. apply raises_at_once. unfold fetch_snapshot_data, bind at 1.
    now rewrite (require_api_key_absent w Hno).
  - exact Hnodes.
  - intros q c Hstep. inversion Hstep as [n f c0 p w' Hin Hen Hrun]; subst.
    destruct (Hnodes q) as ((wg & eg & Hg & _) & (wb & eb & Hb & _) & (wr & er & Hr & _)).
    cbn [state_of world_of initial_config completed] in *.
    unfold nodes in Hin. cbn [In] in Hin.
    repeat (destruct Hin as [Hin | Hin];
            [injection Hin as <- <-; try discriminate Hen; congruence|]).
    exact Hin.
Qed.

(** Witness of [missing_credential_raises_before_network]: an empty
    environment. *)
Lemma missing_credential_raises_before_network_witness :
  raises_before_network
    (serp_search (Some "q"%string) "google")
    (start_world env_without_key always_running model_urls_ok) missing_key.
Proof.
  apply (missing_credential_raises_before_network
           (start_world env_without_key always_running model_urls_ok)).
  - reflexivity.
  - left. reflexivity.
Defined.

(** C6. For the empty URL list [reddit_post_retrieval] returns [None] (no
    exception) after printing one line; nothing is sent to the provider,
    whatever the world, credential included. *)
Theorem reddit_post_retrieval_no_urls
        (w : world) (days_back : Z) (load_all_replies : bool)
        (comment_limit : string) :
  exists w',
    reddit_post_retrieval [] days_back load_all_replies comment_limit w
    = (Ok None, w')
    /\ extends w w' [EvPrint LogNoRedditUrls]
    /\ no_network [EvPrint LogNoRedditUrls]
    /\ sent w' = sent w.
Proof.
  eexists. split; [reflexivity|]. split; [extends_by_trace|].
  split; reflexivity.
Qed.

(** What the adapters make of a downloaded array: nothing for the empty
    array, otherwise the records parsed from its object entries. *)
Lemma parsed_from_list {A : Type} (items : list json) (k : list json -> M A)
      (none : M A) (w : world) :
  (if negb (truthy (JList items)) then none
   else (entries <- py_iter (JList items) ;; k entries)) w
  = match items with
    | [] => none w
    | _ :: _ => k items w
    end.
Proof. destruct items; reflexivity. Qed.

(** C8. When the snapshot pipeline delivers an array, [reddit_search_api]
    and [reddit_post_retrieval] return normally, and their record lists
    are built from the object entries of the array alone, in order: the
    entries that are not objects are dropped.  (An empty array gives
    [None].) *)
Theorem malformed_records_are_dropped
        (w w' : world) (items : list json) :
  (forall keyword date sort_by num_of_posts,
      _execute_snapshot_pipeline trigger_url search_params
        (search_payload keyword date sort_by num_of_posts) "reddit search" w
      = (Ok (JList items), w') ->
      reddit_search_api keyword date sort_by num_of_posts w
      = (Ok (match items with
             | [] => None
             | _ :: _ => Some (search_result (map parse_post (filter is_dict items)))
             end), w'))
  /\ (forall u us days_back load_all_replies comment_limit,
         _execute_snapshot_pipeline trigger_url posts_params
           (posts_payload (u :: us) days_back load_all_replies comment_limit)
           "reddit comments" w
         = (Ok (JList items), w') ->
         reddit_post_retrieval (u :: us) days_back load_all_replies comment_limit w
         = (Ok (match items with
                | [] => None
                | _ :: _ =>
                    Some (comments_result (map parse_comment (filter is_dict items)))
                end), w')).
Proof.
  split.
  - intros keyword date sort_by num_of_posts Hpipe.
    unfold reddit_search_api, bind at 1. rewrite Hpipe.
    rewrite parsed_from_list. destruct items; reflexivity.
  - intros u us days_back load_all_replies comment_limit Hpipe.
    unfold reddit_post_retrieval, bind at 1. rewrite Hpipe.
    rewrite parsed_from_list. destruct items; reflexivity.
Qed.

(** Witness of [malformed_records_are_dropped]: of the three entries
    downloaded, the string is dropped and the two objects are mapped. *)
Lemma malformed_records_are_dropped_witness :
  reddit_search_api (Some "q"%string) default_date default_sort_by
                    default_num_of_posts snapshot_world
  = (Ok (Some (search_result
                 [JDict [("title"%string, JStr "T");
                         ("url"%string, JStr "https://www.reddit.com/r/a/1")];
                  JDict [("title"%string, JStr "U"); ("url"%string, JNull)]])),
     snd (_execute_snapshot_pipeline trigger_url search_params
            (search_payload (Some "q"%string) default_date default_sort_by
                            default_num_of_posts)
            "reddit search" snapshot_world)).
Proof.
  apply (proj1 (malformed_records_are_dropped
                  snapshot_world
                  (snd (_execute_snapshot_pipeline trigger_url search_params
                          (search_payload (Some "q"%string) default_date
                                          default_sort_by default_num_of_posts)
                          "reddit search" snapshot_world))
                  mixed_payload)
               (Some "q"%string) default_date default_sort_by
               default_num_of_posts).
  vm_compute. reflexivity.
Defined.

(** C10. Whenever [reddit_search_api] returns a dict, its [total_found] is
    the length of its [parsed_posts]; whenever [reddit_post_retrieval]
    returns a dict, its [total_retrieved] is the length of its
    [comments]. *)
Theorem counts_match_lists (w w' : world) (r : json) :
  (forall keyword date sort_by num_of_posts,
      reddit_search_api keyword date sort_by num_of_posts w = (Ok (Some r), w') ->
      count_matches r "parsed_posts" "total_found")
  /\ (forall urls days_back load_all_replies comment_limit,
         reddit_post_retrieval urls days_back load_all_replies comment_limit w
         = (Ok (Some r), w') ->
         count_matches r "comments" "total_retrieved").
Proof.
  split.
  - intros keyword date sort_by num_of_posts.
    unfold reddit_search_api, bind at 1.
    destruct (_execute_snapshot_pipeline _ _ _ _ w) as [[data|e] w1];
      [|discriminate].
    destruct (negb (truthy data)); [discriminate|].
    unfold bind. destruct (py_iter data w1) as [[entries|e] w2]; [|discriminate].
    unfold ret. intros H. injection H as <- _.
    unfold count_matches, search_result. do 2 eexists.
    split; [reflexivity|]. split; reflexivity.
  - intros urls days_back load_all_replies comment_limit.
    unfold reddit_post_retrieval. destruct urls as [|u us]; [discriminate|].
    unfold bind at 1.
    destruct (_execute_snapshot_pipeline _ _ _ _ w) as [[data|e] w1];
      [|discriminate].
    destruct (negb (truthy data)); [discriminate|].
    unfold bind. destruct (py_iter data w1) as [[entries|e] w2]; [|discriminate].
    unfold ret. intros H. injection H as <- _.
    unfold count_matches, comments_result. do 2 eexists.
    split; [reflexivity|]. split; reflexivity.
Qed.

(** Witness of [counts_match_lists]: two comments are retrieved in
    [snapshot_world], and [total_retrieved] is 2. *)
Lemma counts_match_lists_witness :
  count_matches
    (comments_result (map parse_comment (filter is_dict mixed_payload)))
    "comments" "total_retrieved".
Proof.
  apply (proj2 (counts_match_lists
                  snapshot_world
                  (snd (reddit_post_retrieval ["https://www.reddit.com/r/a/1"%string]
                          default_days_back default_load_all_replies
                          default_comment_limit snapshot_world))
                  (comments_result (map parse_comment (filter is_dict mixed_payload))))
               ["https://www.reddit.com/r/a/1"%string]
               default_days_back default_load_all_replies default_comment_limit).
  reflexivity.
Defined.


(** A response that is neither falsy nor an object has no [get]: the
    search raises instead of returning. *)
Lemma serp_search_non_object_raises (w : world) (k q engine base : string)
      (resp : json) :
  has_api_key w k ->
  assoc engine base_urls = Some base ->
  provider w (sent w) (serp_request k base q) = Ok resp ->
  truthy resp = true ->
  is_dict resp = false ->
  fst (serp_search (Some q) engine w) = Raise AttributeError.
Proof.
  intros Hkey Hbase Hresp Htrue Hobj. unfold serp_search. rewrite Hbase.
  unfold bind at 1, _send_api_request, bind at 1.
  rewrite (require_api_key_present w k Hkey).
  unfold try_except, http. fold (serp_request k base q). rewrite Hresp, Htrue.
  destruct resp; try discriminate Hobj; reflexivity.
Qed.




(* ===================================================================== *)
(** ** The Reddit branch of the graph *)
(* ===================================================================== *)

Lemma mem_cons (n x : string) (l : list string) :
  mem n (x :: l) = String.eqb n x || mem n l.
Proof. reflexivity. Qed.

Lemma extract_without_reddit_output (s : ResearchState) (w : world) :
  has_reddit_output s = false ->
  extract_reddit_urls s w = (Ok [Set_chosen_reddit_urls (Some [])], w).
Proof.
  unfold has_reddit_output, extract_reddit_urls. intros ->. reflexivity.
Qed.

Lemma extract_model_error (s : ResearchState) (w : world) (e : exn) :
  has_reddit_output s = true ->
  model_urls w (asked w) (url_prompt s) = Raise e ->
  exists w',
    extract_reddit_urls s w = (Ok [Set_chosen_reddit_urls (Some [])], w')
    /\ extends w w' [EvModel true (url_prompt s); EvPrint (LogUrlExtractionError e)].
Proof.
  unfold has_reddit_output, extract_reddit_urls, url_prompt. intros -> Hm.
  cbn [negb]. unfold bind at 1, try_except, bind at 1, structured_llm_invoke.
  rewrite Hm. cbn. eexists. split; [reflexivity|]. extends_by_trace.
Qed.

Lemma fetch_without_urls (s : ResearchState) (w : world) :
  truthy_list (chosen_reddit_urls s) = false ->
  exists w',
    fetch_reddit_posts s w = (Ok [Set_reddit_posts_data (Some (JList []))], w')
    /\ extends w w' [EvPrint LogNoUrlsToFetch].
Proof.
  unfold fetch_reddit_posts. intros H.
  destruct (chosen_reddit_urls s) as [[|u us]|]; try discriminate H;
    (eexists; split; [reflexivity | extends_by_trace]).
Qed.

(** C5. When the Reddit raw output is absent (null or empty),
    [extract_reddit_urls] returns the empty URL list and leaves the world
    as it was: the model is not called.  When the model call raises, it
    returns the empty URL list after printing the error, and raises
    nothing.  [fetch_reddit_posts] on an empty (or null) URL list returns
    the empty post list after printing one line, without any request.  In
    a run where [extract_reddit_urls] is due and the URL selection
    degrades, both nodes complete, the second with an empty post list and
    no request sent. *)
Theorem reddit_branch_degrades_to_empty :
  (forall s w,
      has_reddit_output s = false ->
      extract_reddit_urls s w = (Ok [Set_chosen_reddit_urls (Some [])], w))
  /\ (forall s w e,
         has_reddit_output s = true ->
         model_urls w (asked w) (url_prompt s) = Raise e ->
         exists w',
           extract_reddit_urls s w = (Ok [Set_chosen_reddit_urls (Some [])], w')
           /\ extends w w' [EvModel true (url_prompt s);
                            EvPrint (LogUrlExtractionError e)])
  /\ (forall s w,
         truthy_list (chosen_reddit_urls s) = false ->
         exists w',
           fetch_reddit_posts s w
           = (Ok [Set_reddit_posts_data (Some (JList []))], w')
           /\ extends w w' [EvPrint LogNoUrlsToFetch]
           /\ sent w' = sent w)
  /\ (forall c,
         enabled (completed c) "extract_reddit_urls" = true ->
         mem "fetch_reddit_posts" (completed c) = false ->
         url_selection_degrades (state_of c) (world_of c) ->
         exists c1 c2,
           step c c1 /\ step c1 c2
           /\ chosen_reddit_urls (state_of c1) = Some []
           /\ reddit_posts_data (state_of c2) = Some (JList [])
           /\ sent (world_of c2) = sent (world_of c)).
Proof.
  split; [exact extract_without_reddit_output|].
  split; [exact extract_model_error|].
  split.
  { intros s w H. destruct (fetch_without_urls s w H) as (w' & Hrun & Hext).
    exists w'. repeat split; try assumption; try apply Hext.
    destruct Hext as (_ & _ & -> & _). cbn. lia. }
  intros c Hen Hnot Hdeg.
  assert (Hex : exists w1,
             extract_reddit_urls (state_of c) (world_of c)
             = (Ok [Set_chosen_reddit_urls (Some [])], w1)
             /\ sent w1 = sent (world_of c)).
  { destruct Hdeg as [Habs | [e He]].
    - exists (world_of c). split; [now apply extract_without_reddit_output | reflexivity].
    - destruct (has_reddit_output (state_of c)) eqn:Hhas.
      + destruct (extract_model_error _ _ e Hhas He) as (w1 & Hrun & Hext).
        exists w1. split; [exact Hrun|].
        destruct Hext as (_ & _ & -> & _). cbn. lia.
      + exists (world_of c).
        split; [now apply extract_without_reddit_output | reflexivity]. }
  destruct Hex as (w1 & Hrun1 & Hsent1).
  set (c1 := mkConfig (apply_patch (state_of c) [Set_chosen_reddit_urls (Some [])])
                      ("extract_reddit_urls"%string :: completed c) w1).
  destruct (fetch_without_urls (state_of c1) w1 eq_refl) as (w2 & Hrun2 & Hext2).
  exists c1.
  exists (mkConfig (apply_patch (state_of c1) [Set_reddit_posts_data (Some (JList []))])
                   ("fetch_reddit_posts"%string :: completed c1) w2).
  split; [|split; [|split; [|split]]].
  - apply (step_node "extract_reddit_urls" extract_reddit_urls c _ w1);
      [cbn; tauto | exact Hen | exact Hrun1].
  - apply (step_node "fetch_reddit_posts" fetch_reddit_posts c1 _ w2);
      [cbn; tauto | | exact Hrun2].
    unfold enabled. cbn [completed c1]. rewrite mem_cons, Hnot.
    vm_compute. reflexivity.
  - reflexivity.
  - reflexivity.
  - cbn. destruct Hext2 as (_ & _ & -> & _). cbn. lia.
Qed.

(** Witness of [reddit_branch_degrades_to_empty]: the Reddit search has
    failed, and the run goes through both nodes. *)
Lemma reddit_branch_degrades_to_empty_witness :
  exists c1 c2,
    step searches_done c1 /\ step c1 c2
    /\ chosen_reddit_urls (state_of c1) = Some []
    /\ reddit_posts_data (state_of c2) = Some (JList [])
    /\ sent (world_of c2) = sent (world_of searches_done).
Proof.
  destruct reddit_branch_degrades_to_empty as (_ & _ & _ & H).
  apply (H searches_done).
  - reflexivity.
  - reflexivity.
  - left. reflexivity.
Defined.

(* ===================================================================== *)
(** ** Runs of the graph *)
(* ===================================================================== *)

Lemma find_node_In (n : string) (f : ResearchState -> M patch)
      (table : list (string * (ResearchState -> M patch))) :
  find_node n table = Some f -> In (n, f) table.
Proof.
  induction table as [|[k g] rest IH]; [discriminate|].
  cbn [find_node]. destruct (String.eqb k n) eqn:E.
  - intros H. injection H as ->. apply String.eqb_eq in E. subst k. now left.
  - intros H. right. now apply IH.
Qed.

(** A run under an explicit order is a run of the graph. *)
Lemma run_order_reachable (c0 : config) (order : list string) :
  forall (c c' : config) (w' : world),
    reachable c0 c ->
    run_order order c = Some (Ok c', w') ->
    reachable c0 c'.
Proof.
  induction order as [|n rest IH]; intros c c' w' Hreach Hrun.
  - cbn in Hrun. injection Hrun as <- _. exact Hreach.
  - cbn [run_order] in Hrun.
    destruct (find_node n nodes) as [f|] eqn:Hfind; [|discriminate].
    destruct (enabled (completed c) n) eqn:Hen; [|discriminate].
    destruct (f (state_of c) (world_of c)) as [[p|e] w1] eqn:Hf; [|discriminate].
    eapply IH; [|exact Hrun].
    eapply reach_step; [exact Hreach|].
    apply (step_node n f c p w1); auto using find_node_In.
Qed.

Lemma enabled_dependencies (done : list string) (p n : string) :
  enabled done n = true -> In (p, n) edges -> p <> START -> In p done.
Proof.
  unfold enabled. intros Hen Hedge Hp.
  apply andb_true_iff in Hen. destruct Hen as [_ Hall].
  rewrite forallb_forall in Hall.
  assert (Hpred : In p (predecessors n)).
  { unfold predecessors. apply (in_map fst _ (p, n)).
    apply filter_In. split; [exact Hedge | apply String.eqb_refl]. }
  apply Hall in Hpred. apply orb_true_iff in Hpred.
  destruct Hpred as [Hs | Hm].
  - apply String.eqb_eq in Hs. contradiction.
  - unfold mem in Hm. apply existsb_exists in Hm.
    destruct Hm as (x & Hx & Heq). apply String.eqb_eq in Heq. now subst x.
Qed.

Lemma dependencies_completed_step (done : list string) (n : string) :
  dependencies_completed done ->
  enabled done n = true ->
  dependencies_completed (n :: done).
Proof.
  intros Hdone Hen p m Hedge Hp [<- | Hin].
  - right. eapply enabled_dependencies; eassumption.
  - right. eapply Hdone; eassumption.
Qed.

(** The patch each node returns when it completes. *)
Ltac patch_shape f :=
  unfold f, bind, print, emit, ret, llm_invoke; cbv beta iota; intros Hrun;
  repeat match type of Hrun with
         | context [match ?x with _ => _ end] =>
             let E := fresh "E" in destruct x eqn:E
         end;
  try discriminate Hrun; injection Hrun as <- _; eauto.

Lemma perform_google_search_patch (s : ResearchState) (w w' : world) (p : patch) :
  perform_google_search s w = (Ok p, w') -> exists v, p = [Set_google_output v].
Proof. patch_shape perform_google_search. Qed.

Lemma perform_bing_search_patch (s : ResearchState) (w w' : world) (p : patch) :
  perform_bing_search s w = (Ok p, w') -> exists v, p = [Set_bing_output v].
Proof. patch_shape perform_bing_search. Qed.

Lemma perform_reddit_search_patch (s : ResearchState) (w w' : world) (p : patch) :
  perform_reddit_search s w = (Ok p, w') -> exists v, p = [Set_reddit_output v].
Proof. patch_shape perform_reddit_search. Qed.

Lemma extract_reddit_urls_patch (s : ResearchState) (w w' : world) (p : patch) :
  extract_reddit_urls s w = (Ok p, w') -> exists v, p = [Set_chosen_reddit_urls v].
Proof. patch_shape extract_reddit_urls. Qed.

Lemma fetch_reddit_posts_patch (s : ResearchState) (w w' : world) (p : patch) :
  fetch_reddit_posts s w = (Ok p, w') -> exists v, p = [Set_reddit_posts_data v].
Proof. patch_shape fetch_reddit_posts. Qed.

Lemma analyze_google_data_patch (s : ResearchState) (w w' : world) (p : patch) :
  analyze_google_data s w = (Ok p, w') -> exists r, p = [Set_google_summary (Some r)].
Proof. patch_shape analyze_google_data. Qed.

Lemma analyze_bing_data_patch (s : ResearchState) (w w' : world) (p : patch) :
  analyze_bing_data s w = (Ok p, w') -> exists r, p = [Set_bing_summary (Some r)].
Proof. patch_shape analyze_bing_data. Qed.

Lemma analyze_reddit_data_patch (s : ResearchState) (w w' : world) (p : patch) :
  analyze_reddit_data s w = (Ok p, w') -> exists r, p = [Set_reddit_summary (Some r)].
Proof. patch_shape analyze_reddit_data. Qed.

Lemma combine_insights_patch (s : ResearchState) (w w' : world) (p : patch) :
  combine_insights s w = (Ok p, w') ->
  exists r, p = [Set_final_summary (Some r); Add_messages [mkMessage "assistant" r]].
Proof. patch_shape combine_insights. Qed.

(** A field the node did not write: its link to the completed nodes
    carries over. *)
Ltac kept H :=
  split;
  [ intros Hx; right; exact (proj1 H Hx)
  | intros [Hd | Hd]; [discriminate Hd | exact (proj2 H Hd)] ].

(** A summary the node has just written. *)
Ltac written :=
  split; [ intros _; left; reflexivity | intros _; discriminate ].

Lemma graph_invariant_start (query : string) (w : world) :
  graph_invariant (initial_config query w).
Proof.
  unfold graph_invariant. cbn.
  split; [intros p n _ _ []|].
  repeat split; try (intros H; now contradiction H); intros [].
Qed.

Lemma graph_invariant_step (c c' : config) :
  graph_invariant c -> step c c' -> graph_invariant c'.
Proof.
  intros (Hdep & HG & HB & HR & HF) Hstep.
  inversion Hstep as [n f c0 p w' Hin Hen Hrun]; subst.
  pose proof (dependencies_completed_step _ _ Hdep Hen) as Hdep'.
  unfold nodes in Hin. cbn [In] in Hin.
  repeat (destruct Hin as [Hin | Hin]; [injection Hin as <- <-|]);
    [ apply perform_google_search_patch in Hrun
    | apply perform_bing_search_patch in Hrun
    | apply perform_reddit_search_patch in Hrun
    | apply extract_reddit_urls_patch in Hrun
    | apply fetch_reddit_posts_patch in Hrun
    | apply analyze_google_data_patch in Hrun
    | apply analyze_bing_data_patch in Hrun
    | apply analyze_reddit_data_patch in Hrun
    | apply combine_insights_patch in Hrun
    | contradiction ];
    destruct Hrun as [v ->];
    unfold graph_invariant;
    cbn [state_of completed apply_patch fold_left apply_update
         google_summary bing_summary reddit_summary final_summary];
    (split; [exact Hdep'|]);
    (split; [first [kept HG | written]|]);
    (split; [first [kept HB | written]|]);
    (split; [first [kept HR | written]|]);
    first [ intros Hx; right; exact (HF Hx) | intros _; left; reflexivity ].
Qed.

Lemma graph_invariant_reachable (query : string) (w : world) (c : config) :
  reachable (initial_config query w) c -> graph_invariant c.
Proof.
  induction 1 as [|c c' _ IH Hstep].
  - apply graph_invariant_start.
  - eapply graph_invariant_step; eassumption.
Qed.

Lemma edge_in (p n : string) :
  existsb (fun e => String.eqb (fst e) p && String.eqb (snd e) n) edges = true ->
  In (p, n) edges.
Proof.
  intros H. apply existsb_exists in H. destruct H as ([a b] & Hin & Heq).
  apply andb_true_iff in Heq. destruct Heq as [Ha Hb].
  apply String.eqb_eq in Ha, Hb. cbn in Ha, Hb. now subst.
Qed.

(** From a completed node to a node it depends on. *)
Ltac dependency Hdep p n :=
  apply (Hdep p n); [apply edge_in; reflexivity | discriminate |].

Lemma degraded_run_reachable :
  reachable (initial_config "q" (start_world env_with_key unreachable model_urls_ok))
            degraded_run.
Proof.
  apply (run_order_reachable
           (initial_config "q" (start_world env_with_key unreachable model_urls_ok))
           schedule
           (initial_config "q" (start_world env_with_key unreachable model_urls_ok))
           degraded_run (world_of degraded_run));
    [apply reach_start | vm_compute; reflexivity].
Qed.

(** C3, as stated, fails: when the provider is unreachable the run ends
    with the three summaries and the final summary populated while the
    three raw outputs are null. *)
Lemma summaries_without_raw_output_counterexample :
  ~ throughout_every_run summaries_follow_raw_outputs.
Proof.
  intros H.
  destruct (H _ _ _ degraded_run_reachable) as (Hg & _).
  apply Hg; [vm_compute; discriminate | vm_compute; reflexivity].
Qed.

(** C3, amended.  At every point of every run started from the state
    [start_agent] builds, a per-source summary is populated only after the
    search node of its source, [extract_reddit_urls] and
    [fetch_reddit_posts] have completed, and [final_summary] is populated
    only when the three summaries are. *)
Theorem summaries_follow_searches_throughout
        (query : string) (w : world) (c : config) :
  reachable (initial_config query w) c -> summaries_follow_searches c.
Proof.
  intros Hreach.
  destruct (graph_invariant_reachable query w c Hreach)
    as (Hdep & HG & HB & HR & HF).
  unfold summaries_follow_searches.
  assert (Hextract : In "fetch_reddit_posts"%string (completed c) ->
                     In "extract_reddit_urls"%string (completed c)).
  { intros Hin. dependency Hdep "extract_reddit_urls"%string "fetch_reddit_posts"%string.
    exact Hin. }
  split; [|split; [|split]].
  - intros Hs. apply HG in Hs.
    assert (Hf : In "fetch_reddit_posts"%string (completed c)).
    { dependency Hdep "fetch_reddit_posts"%string "analyze_google"%string. exact Hs. }
    split; [|split; [auto | exact Hf]].
    dependency Hdep "google_search"%string "extract_reddit_urls"%string. auto.
  - intros Hs. apply HB in Hs.
    assert (Hf : In "fetch_reddit_posts"%string (completed c)).
    { dependency Hdep "fetch_reddit_posts"%string "analyze_bing"%string. exact Hs. }
    split; [|split; [auto | exact Hf]].
    dependency Hdep "bing_search"%string "extract_reddit_urls"%string. auto.
  - intros Hs. apply HR in Hs.
    assert (Hf : In "fetch_reddit_posts"%string (completed c)).
    { dependency Hdep "fetch_reddit_posts"%string "analyze_reddit"%string. exact Hs. }
    split; [|split; [auto | exact Hf]].
    dependency Hdep "reddit_search"%string "extract_reddit_urls"%string. auto.
  - intros Hs. apply HF in Hs. split; [|split].
    + apply HG. dependency Hdep "analyze_google"%string "synthesize_results"%string.
      exact Hs.
    + apply HB. dependency Hdep "analyze_bing"%string "synthesize_results"%string.
      exact Hs.
    + apply HR. dependency Hdep "analyze_reddit"%string "synthesize_results"%string.
      exact Hs.
Qed.

(** Witness of [summaries_follow_searches_throughout]: the end of the run
    with an unreachable provider. *)
Lemma summaries_follow_searches_throughout_witness :
  summaries_follow_searches degraded_run.
Proof.
  apply (summaries_follow_searches_throughout
           "q" (start_world env_with_key unreachable model_urls_ok) degraded_run).
  exact degraded_run_reachable.
Defined.

(** C4.  With one URL chosen and three comments downloaded,
    [fetch_reddit_posts] stores in [reddit_posts_data] the whole result
    dict of [reddit_post_retrieval], [{comments, total_retrieved}], which
    is no list, and reports its two keys as two retrieved posts. *)
Theorem fetch_reddit_posts_stores_result_dict :
  fst (fetch_reddit_posts one_url_state comments_world)
  = Ok [Set_reddit_posts_data
          (Some (comments_result (map parse_comment three_comments)))]
  /\ is_list (comments_result (map parse_comment three_comments)) = false
  /\ In (EvPrint (LogRetrieved 2))
        (trace (snd (fetch_reddit_posts one_url_state comments_world)))
  /\ member (comments_result (map parse_comment three_comments)) "total_retrieved"
     = Some (JNum 3).
Proof.
  split; [reflexivity|]. split; [reflexivity|]. split; [|reflexivity].
  vm_compute. right; right; right; right; right; right; right; right.
  left. reflexivity.
Qed.

(* ===================================================================== *)
(** ** The snapshot client in any world *)
(* ===================================================================== *)

Lemma sent_after (w w' : world) (evs : list event) :
  extends w w' evs ->
  sent w' = sent w + List.length (filter is_http (actions evs)).
Proof. intros (_ & _ & -> & _). now rewrite http_of_actions. Qed.

Lemma has_api_key_extends (w w' : world) (evs : list event) (k : string) :
  extends w w' evs -> has_api_key w k -> has_api_key w' k.
Proof.
  intros ((Henv & _) & _) [Hk Hne]. split; [|exact Hne]. now rewrite Henv.
Qed.

Lemma first_terminal_or_none (f : nat -> bool) (len : nat) :
  (forall i, i < len -> f i = false)
  \/ (exists n, n < len /\ f n = true /\ forall i, i < n -> f i = false).
Proof.
  induction len as [|len [Hall | (n & Hn & Hf & Hbefore)]].
  - left. intros i Hi. lia.
  - destruct (f len) eqn:E.
    + right. exists len. repeat split; auto.
    + left. intros i Hi. destruct (Nat.eq_dec i len) as [-> | Hne]; [exact E|].
      apply Hall. lia.
  - right. exists n. repeat split; auto.
Qed.

Lemma terminal_reports (r : outcome json) :
  terminal r = true ->
  exists status,
    reports r status = true
    /\ (status = "ready"%string \/ status = "failed"%string).
Proof.
  unfold terminal. intros H. apply orb_true_iff in H.
  destruct H as [H | H]; eauto.
Qed.

Lemma slept_app (t u : list event) : slept (t ++ u) = (slept t + slept u)%Z.
Proof.
  induction t as [|e t IH]; [reflexivity|].
  destruct e; cbn [app slept]; rewrite ?IH; lia.
Qed.

Lemma slept_actions (t : list event) : slept (actions t) = slept t.
Proof.
  induction t as [|e t IH]; [reflexivity|].
  destruct e; cbn; unfold actions in IH; rewrite ?IH; reflexivity.
Qed.

Lemma slept_rounds (req : request) (interval : Z) (n : nat) :
  slept (List.concat (repeat (poll_and_sleep req interval) n))
  = (Z.of_nat n * interval)%Z.
Proof.
  induction n as [|n IH]; [reflexivity|].
  cbn [repeat List.concat poll_and_sleep app slept]. rewrite IH. lia.
Qed.


(** How a status check ends, the credential being present: all polls
    pass without a terminal status, or a first poll observes one. *)
Lemma check_snapshot_status_cases (w : world) (k : string) (snapshot_id : json)
      (max_retries interval : Z) :
  has_api_key w k ->
  can_sleep interval ->
  exists b w' evs,
    check_snapshot_status snapshot_id max_retries interval w = (Ok b, w')
    /\ extends w w' evs
    /\ ((b = false
         /\ none_terminal w (progress_request k snapshot_id) (Z.to_nat max_retries)
         /\ actions evs
            = List.concat (repeat (poll_and_sleep (progress_request k snapshot_id)
                                                  interval)
                                  (Z.to_nat max_retries)))
        \/ (exists n status,
               n < Z.to_nat max_retries
               /\ first_terminal_at w (progress_request k snapshot_id) n status
               /\ b = String.eqb status "ready"
               /\ actions evs
                  = List.concat (repeat (poll_and_sleep
                                           (progress_request k snapshot_id) interval) n)
                    ++ [EvHttp (progress_request k snapshot_id)])).
Proof.
  intros Hkey Hsleep. set (req := progress_request k snapshot_id).
  assert (Hlen : List.length (range 1 (max_retries + 1)) = Z.to_nat max_retries).
  { rewrite range_length. f_equal. lia. }
  unfold check_snapshot_status, bind at 1.
  rewrite (require_api_key_present w k Hkey). fold req.
  destruct (first_terminal_or_none
              (fun i => terminal (provider w (sent w + i) req))
              (Z.to_nat max_retries))
    as [Hnone | (n & Hn & Hterm & Hbefore)].
  - destruct (for_each_nonterminal req max_retries interval
                                   (range 1 (max_retries + 1)) Hsleep w)
      as (w1 & e1 & Hrun & Hext & Hact).
    { rewrite Hlen. exact Hnone. }
    rewrite Hlen in Hact.
    exists false. eexists. exists (e1 ++ [EvPrint LogTimedOut]).
    split; [|split].
    + unfold bind at 1. rewrite Hrun. unfold bind, print, emit, ret. reflexivity.
    + eapply extends_trans; [exact Hext|]. extends_by_trace.
    + left. split; [reflexivity|]. split; [exact Hnone|].
      rewrite actions_app, Hact. cbn. now rewrite app_nil_r.
  - destruct (terminal_reports _ Hterm) as (status & Hrep & Hst).
    destruct (for_each_terminal_at req max_retries interval status
                                   (range 1 (max_retries + 1)) n w)
      as (w1 & e1 & Hrun & Hext & Hact); try assumption.
    { right. exact Hsleep. }
    { rewrite Hlen. exact Hn. }
    exists (String.eqb status "ready"), w1, e1.
    split; [|split].
    + unfold bind at 1. rewrite Hrun. reflexivity.
    + exact Hext.
    + right. exists n, status. repeat split; assumption.
Qed.







(** X3. When [max_retries] is zero or negative and the credential is
    present, [check_snapshot_status] reports a timeout at once: it returns
    [False] after printing the timeout line, without any request or
    sleep. *)
Theorem check_snapshot_status_no_attempts
        (w : world) (k : string) (snapshot_id : json) (max_retries interval : Z) :
  has_api_key w k ->
  (max_retries <= 0)%Z ->
  exists w',
    check_snapshot_status snapshot_id max_retries interval w = (Ok false, w')
    /\ extends w w' [EvPrint LogTimedOut].
Proof.
  intros Hkey Hmax.
  unfold check_snapshot_status, bind at 1.
  rewrite (require_api_key_present w k Hkey).
  unfold range. replace (Z.to_nat (max_retries + 1 - 1)) with 0 by lia.
  cbn. eexists. split; [reflexivity | extends_by_trace].
Qed.

(** Witness of [check_snapshot_status_no_attempts]. *)
Lemma check_snapshot_status_no_attempts_witness :
  exists w',
    check_snapshot_status (JStr "s_1") 0 5
                          (start_world env_with_key always_running model_urls_ok)
    = (Ok false, w')
    /\ extends (start_world env_with_key always_running model_urls_ok) w'
               [EvPrint LogTimedOut].
Proof.
  apply (check_snapshot_status_no_attempts
           (start_world env_with_key always_running model_urls_ok) "k3y").
  - split; [reflexivity | discriminate].
  - lia.
Defined.

(** What one fail-closed request does. *)
Lemma send_api_request_run (w : world) (k : string) (url : text)
      (params : list (string * string)) (payload : option json) :
  has_api_key w k ->
  exists w' evs,
    _send_api_request url params payload w
    = (Ok (body_or_none (provider w (sent w) (api_request k url params payload))), w')
    /\ extends w w' evs
    /\ actions evs = [EvHttp (api_request k url params payload)].
Proof.
  intros Hkey. unfold _send_api_request, bind at 1.
  rewrite (require_api_key_present w k Hkey).
  unfold try_except, http. fold (api_request k url params payload).
  destruct (provider w (sent w) (api_request k url params payload)) as [d|e].
  - do 2 eexists. split; [reflexivity|]. split; [extends_by_trace | reflexivity].
  - destruct e; cbn; do 2 eexists;
      (split; [reflexivity|]); (split; [extends_by_trace | reflexivity]).
Qed.

Lemma fetch_snapshot_data_run (w : world) (k : string) (snapshot_id : json)
      (file_format : string) :
  has_api_key w k ->
  exists w' evs,
    fetch_snapshot_data snapshot_id file_format w
    = (Ok (body_or_none
             (provider w (sent w) (download_request k snapshot_id file_format))), w')
    /\ extends w w' evs
    /\ actions evs = [EvHttp (download_request k snapshot_id file_format)].
Proof.
  intros Hkey. unfold fetch_snapshot_data, bind at 1.
  rewrite (require_api_key_present w k Hkey).
  unfold try_except, bind, print, emit, http, ret.
  cbn [trace sent environ provider model_text model_urls asked].
  destruct (provider w (sent w) (download_request k snapshot_id file_format))
    as [d|e].
  - do 2 eexists. split; [reflexivity|]. split; [extends_by_trace | reflexivity].
  - do 2 eexists. split; [reflexivity|]. split; [extends_by_trace | reflexivity].
Qed.

(** X4. With the credential present, [_send_api_request] and
    [fetch_snapshot_data] fail closed: each sends exactly one request (a
    POST with the given parameters and payload, resp. a GET of the
    snapshot in the given format) and returns the decoded body, or [None]
    when the request, its status check or the decoding raised; neither
    raises. *)
Theorem requests_fail_closed (w : world) (k : string) :
  has_api_key w k ->
  (forall url params payload,
      exists w' evs,
        _send_api_request url params payload w
        = (Ok (body_or_none (provider w (sent w) (api_request k url params payload))), w')
        /\ extends w w' evs
        /\ actions evs = [EvHttp (api_request k url params payload)])
  /\ (forall snapshot_id file_format,
         exists w' evs,
           fetch_snapshot_data snapshot_id file_format w
           = (Ok (body_or_none
                    (provider w (sent w)
                              (download_request k snapshot_id file_format))), w')
           /\ extends w w' evs
           /\ actions evs = [EvHttp (download_request k snapshot_id file_format)]).
Proof.
  intros Hkey. split.
  - intros. now apply send_api_request_run.
  - intros. now apply fetch_snapshot_data_run.
Qed.

(** Witness of [requests_fail_closed]: a download from an unreachable
    provider gives [None]. *)
Lemma requests_fail_closed_witness :
  exists w' evs,
    fetch_snapshot_data (JStr "s_1") "json"
                        (start_world env_with_key unreachable model_urls_ok)
    = (Ok JNull, w')
    /\ extends (start_world env_with_key unreachable model_urls_ok) w' evs
    /\ actions evs = [EvHttp (download_request "k3y" (JStr "s_1") "json")].
Proof.
  apply (requests_fail_closed
           (start_world env_with_key unreachable model_urls_ok) "k3y").
  split; [reflexivity | discriminate].
Defined.

(* ===================================================================== *)
(** ** The adapters in any world *)
(* ===================================================================== *)

(** X5. For an engine other than [google] and [bing], [serp_search]
    raises [ValueError] at once, whatever the query and the world: the
    credential is not read and nothing is sent. *)
Theorem serp_search_invalid_engine
        (w : world) (query : option string) (engine : string) :
  engine <> "google"%string ->
  engine <> "bing"%string ->
  exists msg, serp_search query engine w = (Raise (ValueError msg), w).
Proof.
  intros Hg Hb. unfold serp_search, base_urls. cbn [assoc].
  destruct (String.eqb "google" engine) eqn:Eg.
  { apply String.eqb_eq in Eg. now subst engine. }
  destruct (String.eqb "bing" engine) eqn:Eb.
  { apply String.eqb_eq in Eb. now subst engine. }
  eexists. reflexivity.
Qed.

(** Witness of [serp_search_invalid_engine]. *)
Lemma serp_search_invalid_engine_witness :
  exists msg,
    serp_search (Some "q"%string) "duckduckgo"
                (start_world env_without_key unreachable model_urls_ok)
    = (Raise (ValueError msg),
       start_world env_without_key unreachable model_urls_ok).
Proof.
  apply (serp_search_invalid_engine
           (start_world env_without_key unreachable model_urls_ok)
           (Some "q"%string) "duckduckgo"); discriminate.
Defined.

Lemma serp_search_falsy_run (w : world) (k q engine base : string) :
  has_api_key w k ->
  assoc engine base_urls = Some base ->
  truthy (body_or_none (provider w (sent w) (serp_request k base q))) = false ->
  exists w' evs,
    serp_search (Some q) engine w = (Ok None, w')
    /\ extends w w' evs
    /\ actions evs = [EvHttp (serp_request k base q)].
Proof.
  intros Hkey Hbase Hfalsy. unfold serp_search. rewrite Hbase.
  destruct (send_api_request_run w k serp_api_url [] (Some (serp_payload base q)) Hkey)
    as (w1 & e1 & Hrun & Hext & Hact).
  unfold bind at 1. rewrite Hrun.
  change (api_request k serp_api_url [] (Some (serp_payload base q)))
    with (serp_request k base q) in *.
  rewrite Hfalsy. cbn [negb].
  exists w1, e1. split; [reflexivity|]. split; assumption.
Qed.

(** X6. With the credential present, a SERP search on [google] or [bing]
    fails closed: when the request fails, or its body is falsy, the
    search returns [None] after its one request and raises nothing. *)
Theorem serp_search_fails_closed
        (w : world) (k q engine base : string) :
  has_api_key w k ->
  assoc engine base_urls = Some base ->
  truthy (body_or_none (provider w (sent w) (serp_request k base q))) = false ->
  exists w' evs,
    serp_search (Some q) engine w = (Ok None, w')
    /\ extends w w' evs
    /\ actions evs = [EvHttp (serp_request k base q)]
    /\ sent w' = sent w + 1.
Proof.
  intros Hkey Hbase Hfalsy.
  destruct (serp_search_falsy_run w k q engine base Hkey Hbase Hfalsy)
    as (w' & evs & Hrun & Hext & Hact).
  exists w', evs. repeat split; try assumption; try apply Hext.
  rewrite (sent_after _ _ _ Hext), Hact. reflexivity.
Qed.

(** Witness of [serp_search_fails_closed]. *)
Lemma serp_search_fails_closed_witness :
  exists w' evs,
    serp_search (Some "q"%string) "google"
                (start_world env_with_key unreachable model_urls_ok)
    = (Ok None, w')
    /\ extends (start_world env_with_key unreachable model_urls_ok) w' evs
    /\ actions evs
       = [EvHttp (serp_request "k3y" "https://www.google.com/search" "q")]
    /\ sent w' = 0 + 1.
Proof.
  apply (serp_search_fails_closed
           (start_world env_with_key unreachable model_urls_ok)
           "k3y" "q" "google" "https://www.google.com/search").
  - split; [reflexivity | discriminate].
  - reflexivity.
  - reflexivity.
Defined.

Lemma first_terminal_at_shift (w w1 : world) (evs : list event) (req : request)
      (n : nat) (status : string) :
  extends w w1 evs ->
  List.length (filter is_http (actions evs)) = 1 ->
  first_terminal_at (skip_requests w 1) req n status ->
  first_terminal_at w1 req n status.
Proof.
  intros Hext Hone (Hbefore & Hrep & Hst).
  pose proof (sent_after _ _ _ Hext) as Hsent. rewrite Hone in Hsent.
  destruct Hext as ((_ & Hprov & _) & _).
  unfold first_terminal_at. rewrite Hprov, Hsent.
  cbn [skip_requests provider sent] in Hbefore, Hrep.
  repeat split; assumption.
Qed.

Lemma none_terminal_shift (w w1 : world) (evs : list event) (req : request)
      (n : nat) :
  extends w w1 evs ->
  List.length (filter is_http (actions evs)) = 1 ->
  none_terminal (skip_requests w 1) req n ->
  none_terminal w1 req n.
Proof.
  intros Hext Hone Hnone.
  pose proof (sent_after _ _ _ Hext) as Hsent. rewrite Hone in Hsent.
  destruct Hext as ((_ & Hprov & _) & _).
  unfold none_terminal. rewrite Hprov, Hsent. exact Hnone.
Qed.

Lemma pipeline_trigger_unusable
        (w : world) (k : string) (url : text) (params : list (string * string))
        (payload : json) (task_name : string) :
  has_api_key w k ->
  trigger_unusable (provider w (sent w) (api_request k url params (Some payload))) ->
  exists w' evs,
    _execute_snapshot_pipeline url params payload task_name w = (Ok JNull, w')
    /\ extends w w' evs
    /\ actions evs = [EvHttp (api_request k url params (Some payload))].
Proof.
  intros Hkey Hun.
  destruct (send_api_request_run w k url params (Some payload) Hkey)
    as (w1 & e1 & Hrun & Hext & Hact).
  unfold _execute_snapshot_pipeline, bind at 1. rewrite Hrun.
  destruct Hun as [Hfalsy | (fields & Hreply & Hid)].
  - rewrite Hfalsy. cbn [negb]. unfold bind, print, emit, ret.
    do 2 eexists. split; [reflexivity|]. split.
    + eapply extends_trans; [exact Hext|]. extends_by_trace.
    + rewrite actions_app, Hact. reflexivity.
  - rewrite Hreply. cbn [body_or_none].
    destruct fields as [|f fields].
    + cbn. do 2 eexists. split; [reflexivity|]. split.
      * eapply extends_trans; [exact Hext|]. extends_by_trace.
      * rewrite actions_app, Hact. reflexivity.
    + cbn [truthy negb py_get py_get_or]. unfold bind at 1, ret at 1.
      rewrite Hid. cbn [negb]. unfold bind, print, emit, ret.
      do 2 eexists. split; [reflexivity|]. split.
      * eapply extends_trans; [exact Hext|]. extends_by_trace.
      * rewrite actions_app, Hact. reflexivity.
Qed.

(** X7. With the credential present, when the trigger request gives no
    snapshot to wait for (it failed, its body is falsy, or the body is an
    object without a truthy [snapshot_id]), [_execute_snapshot_pipeline]
    returns [None] after that one request: it neither polls, nor sleeps,
    nor downloads. *)
Theorem pipeline_stops_at_trigger
        (w : world) (k : string) (url : text) (params : list (string * string))
        (payload : json) (task_name : string) :
  has_api_key w k ->
  trigger_unusable (provider w (sent w) (api_request k url params (Some payload))) ->
  exists w' evs,
    _execute_snapshot_pipeline url params payload task_name w = (Ok JNull, w')
    /\ extends w w' evs
    /\ actions evs = [EvHttp (api_request k url params (Some payload))]
    /\ sent w' = sent w + 1
    /\ slept evs = 0%Z.
Proof.
  intros Hkey Hun.
  destruct (pipeline_trigger_unusable w k url params payload task_name Hkey Hun)
    as (w' & evs & Hrun & Hext & Hact).
  exists w', evs. split; [exact Hrun|]. split; [exact Hext|].
  split; [exact Hact|]. split.
  - rewrite (sent_after _ _ _ Hext), Hact. reflexivity.
  - rewrite <- slept_actions, Hact. reflexivity.
Qed.

(** Witness of [pipeline_stops_at_trigger]: the provider answers the
    trigger with the empty object. *)
Lemma pipeline_stops_at_trigger_witness :
  exists w' evs,
    _execute_snapshot_pipeline trigger_url posts_params (JList []) "reddit comments"
                               (start_world env_with_key empty_object model_urls_ok)
    = (Ok JNull, w')
    /\ extends (start_world env_with_key empty_object model_urls_ok) w' evs
    /\ actions evs
       = [EvHttp (api_request "k3y" trigger_url posts_params (Some (JList [])))]
    /\ sent w' = 0 + 1
    /\ slept evs = 0%Z.
Proof.
  apply (pipeline_stops_at_trigger
           (start_world env_with_key empty_object model_urls_ok) "k3y").
  - split; [reflexivity | discriminate].
  - left. reflexivity.
Defined.

Lemma check_status_at_terminal (w : world) (k : string) (snapshot_id : json)
      (max_retries interval : Z) (n : nat) (status : string) :
  has_api_key w k ->
  can_sleep interval ->
  n < Z.to_nat max_retries ->
  first_terminal_at w (progress_request k snapshot_id) n status ->
  exists w' evs,
    check_snapshot_status snapshot_id max_retries interval w
    = (Ok (String.eqb status "ready"), w')
    /\ extends w w' evs
    /\ actions evs
       = List.concat (repeat (poll_and_sleep (progress_request k snapshot_id) interval) n)
         ++ [EvHttp (progress_request k snapshot_id)].
Proof.
  intros Hkey Hsleep Hn (Hbefore & Hrep & Hst).
  destruct (for_each_terminal_at (progress_request k snapshot_id) max_retries
                                 interval status (range 1 (max_retries + 1)) n w)
    as (w1 & e1 & Hrun & Hext & Hact); try assumption.
  { right. exact Hsleep. }
  { rewrite range_length. lia. }
  exists w1, e1. split; [|split]; try assumption.
  unfold check_snapshot_status, bind at 1.
  rewrite (require_api_key_present w k Hkey).
  unfold bind at 1. rewrite Hrun. reflexivity.
Qed.

Lemma check_status_timeout (w : world) (k : string) (snapshot_id : json)
      (max_retries interval : Z) :
  has_api_key w k ->
  can_sleep interval ->
  none_terminal w (progress_request k snapshot_id) (Z.to_nat max_retries) ->
  exists w' evs,
    check_snapshot_status snapshot_id max_retries interval w = (Ok false, w')
    /\ extends w w' evs
    /\ actions evs
       = List.concat (repeat (poll_and_sleep (progress_request k snapshot_id) interval)
                             (Z.to_nat max_retries)).
Proof.
  intros Hkey Hsleep Hnone.
  assert (Hlen : List.length (range 1 (max_retries + 1)) = Z.to_nat max_retries).
  { rewrite range_length. f_equal. lia. }
  destruct (for_each_nonterminal (progress_request k snapshot_id) max_retries
                                 interval (range 1 (max_retries + 1)) Hsleep w)
    as (w1 & e1 & Hrun & Hext & Hact).
  { rewrite Hlen. exact Hnone. }
  rewrite Hlen in Hact.
  eexists. exists (e1 ++ [EvPrint LogTimedOut]). split; [|split].
  - unfold check_snapshot_status, bind at 1.
    rewrite (require_api_key_present w k Hkey).
    unfold bind at 1. rewrite Hrun. unfold bind, print, emit, ret. reflexivity.
  - eapply extends_trans; [exact Hext|]. extends_by_trace.
  - rewrite actions_app, Hact. cbn. now rewrite app_nil_r.
Qed.

(** An accepted trigger: the pipeline goes on with the status check of
    the snapshot named in the reply. *)
Lemma pipeline_after_trigger (w : world) (k : string) (url : text)
      (params : list (string * string)) (payload : json) (task_name : string)
      (id : json) :
  has_api_key w k ->
  trigger_accepted (provider w (sent w) (api_request k url params (Some payload))) id ->
  exists w1 e1,
    extends w w1 e1
    /\ actions e1 = [EvHttp (api_request k url params (Some payload))]
    /\ _execute_snapshot_pipeline url params payload task_name w
       = (completed <- check_snapshot_status id default_max_retries default_interval ;;
          if negb completed
          then print (LogNotCompleted task_name) ;; ret JNull
          else fetch_snapshot_data id default_file_format) w1.
Proof.
  intros Hkey (fields & Hreply & Hid & Htrue).
  destruct (send_api_request_run w k url params (Some payload) Hkey)
    as (w1 & e1 & Hrun & Hext & Hact).
  exists w1, e1. split; [exact Hext|]. split; [exact Hact|].
  unfold _execute_snapshot_pipeline, bind at 1. rewrite Hrun, Hreply.
  cbn [body_or_none].
  destruct fields as [|f fields]; [discriminate Hid|].
  cbn [truthy negb py_get py_get_or]. unfold bind at 1, ret at 1.
  unfold get_default. rewrite Hid, Htrue. reflexivity.
Qed.

Lemma one_request (evs : list event) (r : request) :
  actions evs = [EvHttp r] -> List.length (filter is_http (actions evs)) = 1.
Proof. intros ->. reflexivity. Qed.

(** X8. With the credential present and the trigger accepted, when the
    poll of index [n] (below 60) is the first to observe a terminal status
    and that status is [ready], [_execute_snapshot_pipeline] returns the
    body of the download, or [None] when the download fails.  Apart from
    printing it sends the trigger, does [n] rounds of poll and 5-second
    sleep, the poll that observes [ready], and the one download: [n + 3]
    requests. *)
Theorem pipeline_downloads_when_ready
        (w : world) (k : string) (url : text) (params : list (string * string))
        (payload : json) (task_name : string) (id : json) (n : nat) :
  has_api_key w k ->
  trigger_accepted (provider w (sent w) (api_request k url params (Some payload))) id ->
  n < 60 ->
  first_terminal_at (skip_requests w 1) (progress_request k id) n "ready" ->
  exists w' evs,
    _execute_snapshot_pipeline url params payload task_name w
    = (Ok (body_or_none (provider w (sent w + n + 2)
                                  (download_request k id "json"))), w')
    /\ extends w w' evs
    /\ actions evs
       = [EvHttp (api_request k url params (Some payload))]
         ++ List.concat (repeat (poll_and_sleep (progress_request k id) 5) n)
         ++ [EvHttp (progress_request k id); EvHttp (download_request k id "json")]
    /\ sent w' = sent w + n + 3.
Proof.
  intros Hkey Hacc Hn Hfirst.
  destruct (pipeline_after_trigger w k url params payload task_name id Hkey Hacc)
    as (w1 & e1 & Hext1 & Hact1 & ->).
  pose proof (one_request _ _ Hact1) as Hone.
  destruct (check_status_at_terminal w1 k id default_max_retries default_interval
                                     n "ready")
    as (w2 & e2 & Hrun2 & Hext2 & Hact2).
  { eapply has_api_key_extends; eassumption. }
  { exact can_sleep_default. }
  { exact Hn. }
  { eapply first_terminal_at_shift; eassumption. }
  destruct (fetch_snapshot_data_run w2 k id default_file_format)
    as (w3 & e3 & Hrun3 & Hext3 & Hact3).
  { eapply has_api_key_extends; [exact Hext2|].
    eapply has_api_key_extends; eassumption. }
  pose proof (sent_after _ _ _ Hext1) as Hs1. rewrite Hone in Hs1.
  pose proof (sent_after _ _ _ Hext2) as Hs2.
  rewrite Hact2, filter_app, length_app, http_of_rounds in Hs2. cbn in Hs2.
  assert (Hprov : provider w2 = provider w).
  { destruct Hext2 as ((_ & -> & _) & _). apply Hext1. }
  rewrite Hprov, Hs2, Hs1 in Hrun3.
  replace (sent w + 1 + (n + 1)) with (sent w + n + 2) in Hrun3 by lia.
  pose proof (extends_trans _ _ _ _ _ Hext1 (extends_trans _ _ _ _ _ Hext2 Hext3))
    as Hext.
  exists w3, (e1 ++ e2 ++ e3). split; [|split; [|split]].
  - unfold bind at 1. rewrite Hrun2. cbn [String.eqb negb]. exact Hrun3.
  - exact Hext.
  - rewrite !actions_app, Hact1, Hact2, Hact3.
    unfold default_interval, default_file_format.
    now rewrite <- !app_assoc.
  - rewrite (sent_after _ _ _ Hext), !actions_app, Hact1, Hact2, Hact3.
    rewrite !filter_app, !length_app, http_of_rounds. cbn. lia.
Qed.

(** Witness of [pipeline_downloads_when_ready]: the snapshot is ready at
    the first poll. *)
Lemma pipeline_downloads_when_ready_witness :
  exists w' evs,
    _execute_snapshot_pipeline trigger_url search_params (JList []) "reddit search"
                               snapshot_world
    = (Ok (JList mixed_payload), w')
    /\ extends snapshot_world w' evs
    /\ actions evs
       = [EvHttp (api_request "k3y" trigger_url search_params (Some (JList [])))]
         ++ List.concat (repeat (poll_and_sleep (progress_request "k3y" (JStr "s_1")) 5) 0)
         ++ [EvHttp (progress_request "k3y" (JStr "s_1"));
             EvHttp (download_request "k3y" (JStr "s_1") "json")]
    /\ sent w' = sent snapshot_world + 0 + 3.
Proof.
  apply (pipeline_downloads_when_ready snapshot_world "k3y" trigger_url
           search_params (JList []) "reddit search" (JStr "s_1") 0).
  - split; [reflexivity | discriminate].
  - eexists. split; [reflexivity|]. split; reflexivity.
  - lia.
  - split; [intros i Hi; lia|]. split; [reflexivity | left; reflexivity].
Defined.

(** X9. With the credential present and the trigger accepted, when the
    poll of index [n] (below 60) is the first to observe a terminal status
    and that status is [failed], [_execute_snapshot_pipeline] returns
    [None] and downloads nothing: after the trigger it sends only the
    [n + 1] polls. *)
Theorem pipeline_gives_up_when_failed
        (w : world) (k : string) (url : text) (params : list (string * string))
        (payload : json) (task_name : string) (id : json) (n : nat) :
  has_api_key w k ->
  trigger_accepted (provider w (sent w) (api_request k url params (Some payload))) id ->
  n < 60 ->
  first_terminal_at (skip_requests w 1) (progress_request k id) n "failed" ->
  exists w' evs,
    _execute_snapshot_pipeline url params payload task_name w = (Ok JNull, w')
    /\ extends w w' evs
    /\ actions evs
       = [EvHttp (api_request k url params (Some payload))]
         ++ List.concat (repeat (poll_and_sleep (progress_request k id) 5) n)
         ++ [EvHttp (progress_request k id)].
Proof.
  intros Hkey Hacc Hn Hfirst.
  destruct (pipeline_after_trigger w k url params payload task_name id Hkey Hacc)
    as (w1 & e1 & Hext1 & Hact1 & ->).
  pose proof (one_request _ _ Hact1) as Hone.
  destruct (check_status_at_terminal w1 k id default_max_retries default_interval
                                     n "failed")
    as (w2 & e2 & Hrun2 & Hext2 & Hact2).
  { eapply has_api_key_extends; eassumption. }
  { exact can_sleep_default. }
  { exact Hn. }
  { eapply first_terminal_at_shift; eassumption. }
  eexists. exists (e1 ++ e2 ++ [EvPrint (LogNotCompleted task_name)]).
  split; [|split].
  - unfold bind at 1. rewrite Hrun2. cbn [String.eqb negb].
    unfold bind, print, emit, ret. reflexivity.
  - eapply extends_trans; [exact Hext1|].
    eapply extends_trans; [exact Hext2|]. extends_by_trace.
  - rewrite !actions_app, Hact1, Hact2. unfold default_interval. cbn [actions filter is_print negb].
    now rewrite app_nil_r.
Qed.

(** Witness of [pipeline_gives_up_when_failed]. *)
Lemma pipeline_gives_up_when_failed_witness :
  exists w' evs,
    _execute_snapshot_pipeline trigger_url search_params (JList []) "reddit search"
      (start_world env_with_key (scripted [snapshot_started; status_reply "failed"])
                   model_urls_ok)
    = (Ok JNull, w')
    /\ extends (start_world env_with_key
                            (scripted [snapshot_started; status_reply "failed"])
                            model_urls_ok) w' evs
    /\ actions evs
       = [EvHttp (api_request "k3y" trigger_url search_params (Some (JList [])))]
         ++ List.concat (repeat (poll_and_sleep (progress_request "k3y" (JStr "s_1")) 5) 0)
         ++ [EvHttp (progress_request "k3y" (JStr "s_1"))].
Proof.
  apply (pipeline_gives_up_when_failed
           (start_world env_with_key (scripted [snapshot_started; status_reply "failed"])
                        model_urls_ok)
           "k3y" trigger_url search_params (JList []) "reddit search" (JStr "s_1") 0).
  - split; [reflexivity | discriminate].
  - eexists. split; [reflexivity|]. split; reflexivity.
  - lia.
  - split; [intros i Hi; lia|]. split; [reflexivity | right; reflexivity].
Defined.

(** X10. With the credential present and the trigger accepted, when none
    of the 60 polls observes a terminal status,
    [_execute_snapshot_pipeline] returns [None] without downloading, after
    61 requests and 300 seconds of sleep. *)
Theorem pipeline_times_out_after_300_seconds
        (w : world) (k : string) (url : text) (params : list (string * string))
        (payload : json) (task_name : string) (id : json) :
  has_api_key w k ->
  trigger_accepted (provider w (sent w) (api_request k url params (Some payload))) id ->
  none_terminal (skip_requests w 1) (progress_request k id) 60 ->
  exists w' evs,
    _execute_snapshot_pipeline url params payload task_name w = (Ok JNull, w')
    /\ extends w w' evs
    /\ actions evs
       = [EvHttp (api_request k url params (Some payload))]
         ++ List.concat (repeat (poll_and_sleep (progress_request k id) 5) 60)
    /\ sent w' = sent w + 61
    /\ slept evs = 300%Z.
Proof.
  intros Hkey Hacc Hnone.
  destruct (pipeline_after_trigger w k url params payload task_name id Hkey Hacc)
    as (w1 & e1 & Hext1 & Hact1 & ->).
  pose proof (one_request _ _ Hact1) as Hone.
  destruct (check_status_timeout w1 k id default_max_retries default_interval)
    as (w2 & e2 & Hrun2 & Hext2 & Hact2).
  { eapply has_api_key_extends; eassumption. }
  { exact can_sleep_default. }
  { eapply none_terminal_shift; eassumption. }
  change (Z.to_nat default_max_retries) with 60 in Hact2.
  unfold default_interval in Hact2.
  assert (Hact : actions (e1 ++ e2 ++ [EvPrint (LogNotCompleted task_name)])
                 = [EvHttp (api_request k url params (Some payload))]
                   ++ List.concat (repeat (poll_and_sleep (progress_request k id) 5) 60)).
  { rewrite !actions_app, Hact1, Hact2. cbn [actions filter is_print negb].
    now rewrite app_nil_r. }
  assert (Hext : extends w (snd ((print (LogNotCompleted task_name) ;; ret JNull) w2))
                         (e1 ++ e2 ++ [EvPrint (LogNotCompleted task_name)])).
  { eapply extends_trans; [exact Hext1|].
    eapply extends_trans; [exact Hext2|]. extends_by_trace. }
  exists (snd ((print (LogNotCompleted task_name) ;; ret JNull) w2)).
  exists (e1 ++ e2 ++ [EvPrint (LogNotCompleted task_name)]).
  split; [|split; [|split; [|split]]].
  - unfold bind at 1. rewrite Hrun2. cbn [negb]. reflexivity.
  - exact Hext.
  - exact Hact.
  - rewrite (sent_after _ _ _ Hext), Hact, filter_app, length_app, http_of_rounds.
    cbn. lia.
  - rewrite <- slept_actions, Hact, slept_app, slept_rounds. reflexivity.
Qed.

(** Witness of [pipeline_times_out_after_300_seconds]: the snapshot stays
    [running]. *)
Lemma pipeline_times_out_after_300_seconds_witness :
  exists w' evs,
    _execute_snapshot_pipeline trigger_url search_params (JList []) "reddit search"
      (start_world env_with_key
                   (fun n _ => match n with
                               | 0 => snapshot_started
                               | _ => status_reply "running"
                               end)
                   model_urls_ok)
    = (Ok JNull, w')
    /\ extends (start_world env_with_key
                            (fun n _ => match n with
                                        | 0 => snapshot_started
                                        | _ => status_reply "running"
                                        end)
                            model_urls_ok) w' evs
    /\ actions evs
       = [EvHttp (api_request "k3y" trigger_url search_params (Some (JList [])))]
         ++ List.concat (repeat (poll_and_sleep (progress_request "k3y" (JStr "s_1")) 5) 60)
    /\ sent w' = 0 + 61
    /\ slept evs = 300%Z.
Proof.
  apply (pipeline_times_out_after_300_seconds
           (start_world env_with_key
                        (fun n _ => match n with
                                    | 0 => snapshot_started
                                    | _ => status_reply "running"
                                    end)
                        model_urls_ok)
           "k3y" trigger_url search_params (JList []) "reddit search" (JStr "s_1")).
  - split; [reflexivity | discriminate].
  - eexists. split; [reflexivity|]. split; reflexivity.
  - intros i Hi. cbn. destruct (i + 1) eqn:E; [lia | reflexivity].
Defined.

Lemma post_of_actions (t : list event) :
  filter is_post (actions t) = filter is_post t.
Proof.
  induction t as [|e t IH]; [reflexivity|].
  destruct e; cbn; unfold actions in IH; rewrite ?IH; reflexivity.
Qed.

Lemma post_of_rounds (k : string) (id : json) (interval : Z) (n : nat) :
  filter is_post (List.concat (repeat (poll_and_sleep (progress_request k id) interval) n))
  = [].
Proof.
  induction n as [|n IH]; [reflexivity|].
  cbn [repeat List.concat poll_and_sleep app filter is_post progress_request meth].
  exact IH.
Qed.

(** Whatever the provider answers, the pipeline sends one POST, the
    trigger; all its other requests are GETs. *)
Lemma pipeline_posts_once (w : world) (k : string) (url : text)
      (params : list (string * string)) (payload : json) (task_name : string) :
  has_api_key w k ->
  exists r w' evs,
    _execute_snapshot_pipeline url params payload task_name w = (r, w')
    /\ extends w w' evs
    /\ filter is_post evs = [EvHttp (api_request k url params (Some payload))].
Proof.
  intros Hkey.
  set (reply := provider w (sent w) (api_request k url params (Some payload))).
  destruct (truthy (body_or_none reply)) eqn:Htrue.
  2:{ destruct (pipeline_trigger_unusable w k url params payload task_name Hkey)
        as (w' & evs & Hrun & Hext & Hact); [left; exact Htrue|].
      exists (Ok JNull), w', evs. split; [exact Hrun|]. split; [exact Hext|].
      now rewrite <- post_of_actions, Hact. }
  destruct reply as [body|e] eqn:Hreply; [|discriminate Htrue].
  cbn [body_or_none] in Htrue.
  destruct (is_dict body) eqn:Hdict.
  - destruct body as [| | | | |fields]; try discriminate Hdict.
    destruct (truthy (get_default fields "snapshot_id" JNull)) eqn:Hid.
    2:{ destruct (pipeline_trigger_unusable w k url params payload task_name Hkey)
          as (w' & evs & Hrun & Hext & Hact).
        { right. exists fields. split; [exact Hreply | exact Hid]. }
        exists (Ok JNull), w', evs. split; [exact Hrun|]. split; [exact Hext|].
        now rewrite <- post_of_actions, Hact. }
    assert (Hacc : trigger_accepted
                     (provider w (sent w) (api_request k url params (Some payload)))
                     (get_default fields "snapshot_id" JNull)).
    { exists fields. split; [exact Hreply|]. split; [|exact Hid].
      unfold get_default in *. destruct (lookup "snapshot_id" fields);
        [reflexivity | discriminate Hid]. }
    set (id := get_default fields "snapshot_id" JNull) in *.
    destruct (pipeline_after_trigger w k url params payload task_name id Hkey Hacc)
      as (w1 & e1 & Hext1 & Hact1 & ->).
    assert (Hkey1 : has_api_key w1 k) by (eapply has_api_key_extends; eassumption).
    destruct (check_snapshot_status_cases w1 k id default_max_retries
                                          default_interval Hkey1 can_sleep_default)
      as (b & w2 & e2 & Hrun2 & Hext2 & Hcases).
    assert (Hpost2 : filter is_post (actions e2) = []).
    { destruct Hcases as [(_ & _ & ->) | (n & status & _ & _ & _ & ->)].
      - apply post_of_rounds.
      - rewrite filter_app, post_of_rounds. reflexivity. }
    unfold bind at 1. rewrite Hrun2.
    destruct b; cbn [negb].
    + destruct (fetch_snapshot_data_run w2 k id default_file_format)
        as (w3 & e3 & Hrun3 & Hext3 & Hact3).
      { eapply has_api_key_extends; eassumption. }
      do 2 eexists. exists (e1 ++ e2 ++ e3). split; [exact Hrun3|]. split.
      * eapply extends_trans; [exact Hext1|].
        eapply extends_trans; eassumption.
      * rewrite <- post_of_actions, !actions_app, !filter_app, Hact1, Hpost2, Hact3.
        reflexivity.
    + do 2 eexists. exists (e1 ++ e2 ++ [EvPrint (LogNotCompleted task_name)]).
      split; [unfold bind, print, emit, ret; reflexivity|]. split.
      * eapply extends_trans; [exact Hext1|].
        eapply extends_trans; [exact Hext2|]. extends_by_trace.
      * rewrite <- post_of_actions, !actions_app, !filter_app, Hact1, Hpost2.
        reflexivity.
  - destruct (send_api_request_run w k url params (Some payload) Hkey)
      as (w1 & e1 & Hrun & Hext & Hact).
    fold reply in Hrun. rewrite Hreply in Hrun. cbn [body_or_none] in Hrun.
    exists (Raise AttributeError), w1, e1. split; [|split].
    + unfold _execute_snapshot_pipeline, bind at 1. rewrite Hrun, Htrue.
      cbn [negb]. destruct body; try discriminate Hdict; reflexivity.
    + exact Hext.
    + now rewrite <- post_of_actions, Hact.
Qed.

(** After the pipeline the adapters do no more I/O. *)
Lemma reddit_search_api_world (w : world) (keyword : option string)
      (date sort_by : string) (num_of_posts : Z) :
  snd (reddit_search_api keyword date sort_by num_of_posts w)
  = snd (_execute_snapshot_pipeline trigger_url search_params
           (search_payload keyword date sort_by num_of_posts) "reddit search" w).
Proof.
  unfold reddit_search_api, bind at 1.
  destruct (_execute_snapshot_pipeline _ _ _ _ w) as [[data|e] w1]; [|reflexivity].
  destruct (negb (truthy data)); [reflexivity|].
  destruct data; reflexivity.
Qed.

Lemma reddit_post_retrieval_world (w : world) (u : string) (us : list string)
      (days_back : Z) (load_all_replies : bool) (comment_limit : string) :
  snd (reddit_post_retrieval (u :: us) days_back load_all_replies comment_limit w)
  = snd (_execute_snapshot_pipeline trigger_url posts_params
           (posts_payload (u :: us) days_back load_all_replies comment_limit)
           "reddit comments" w).
Proof.
  unfold reddit_post_retrieval, bind at 1.
  destruct (_execute_snapshot_pipeline _ _ _ _ w) as [[data|e] w1]; [|reflexivity].
  destruct (negb (truthy data)); [reflexivity|].
  destruct data; reflexivity.
Qed.

(** X11. With the credential present, when the trigger gives no snapshot
    to wait for, both Reddit adapters return [None] after that single
    request, without raising. *)
Theorem reddit_adapters_stop_at_trigger (w : world) (k : string) :
  has_api_key w k ->
  (forall keyword date sort_by num_of_posts,
      trigger_unusable
        (provider w (sent w) (search_trigger k keyword date sort_by num_of_posts)) ->
      exists w' evs,
        reddit_search_api keyword date sort_by num_of_posts w = (Ok None, w')
        /\ extends w w' evs
        /\ actions evs
           = [EvHttp (search_trigger k keyword date sort_by num_of_posts)])
  /\ (forall u us days_back load_all_replies comment_limit,
         trigger_unusable
           (provider w (sent w)
              (comments_trigger k (u :: us) days_back load_all_replies comment_limit)) ->
         exists w' evs,
           reddit_post_retrieval (u :: us) days_back load_all_replies comment_limit w
           = (Ok None, w')
           /\ extends w w' evs
           /\ actions evs
              = [EvHttp (comments_trigger k (u :: us) days_back load_all_replies
                                          comment_limit)]).
Proof.
  intros Hkey. split.
  - intros keyword date sort_by num_of_posts Hun.
    destruct (pipeline_trigger_unusable w k trigger_url search_params
                (search_payload keyword date sort_by num_of_posts) "reddit search"
                Hkey Hun) as (w' & evs & Hrun & Hext & Hact).
    exists w', evs. split; [|split; assumption].
    unfold reddit_search_api, bind at 1. rewrite Hrun. reflexivity.
  - intros u us days_back load_all_replies comment_limit Hun.
    destruct (pipeline_trigger_unusable w k trigger_url posts_params
                (posts_payload (u :: us) days_back load_all_replies comment_limit)
                "reddit comments" Hkey Hun) as (w' & evs & Hrun & Hext & Hact).
    exists w', evs. split; [|split; assumption].
    unfold reddit_post_retrieval, bind at 1. rewrite Hrun. reflexivity.
Qed.

(** Witness of [reddit_adapters_stop_at_trigger]: the provider is
    unreachable. *)
Lemma reddit_adapters_stop_at_trigger_witness :
  exists w' evs,
    reddit_search_api (Some "q"%string) default_date default_sort_by
                      default_num_of_posts
                      (start_world env_with_key unreachable model_urls_ok)
    = (Ok None, w')
    /\ extends (start_world env_with_key unreachable model_urls_ok) w' evs
    /\ actions evs
       = [EvHttp (search_trigger "k3y" (Some "q"%string) default_date
                                 default_sort_by default_num_of_posts)].
Proof.
  apply (reddit_adapters_stop_at_trigger
           (start_world env_with_key unreachable model_urls_ok) "k3y").
  - split; [reflexivity | discriminate].
  - left. reflexivity.
Defined.

(** X12. With the credential present, [reddit_post_retrieval] on a
    non-empty URL list sends exactly one POST, whatever the provider
    answers and however many URLs there are: the trigger, whose payload
    is an array with one job per URL, in the order of the URLs, each
    carrying its URL and the same [days_back], [load_all_replies] and
    [comment_limit]. *)
Theorem reddit_post_retrieval_one_batch
        (w : world) (k : string) (u : string) (us : list string)
        (days_back : Z) (load_all_replies : bool) (comment_limit : string) :
  has_api_key w k ->
  exists r w' evs jobs,
    reddit_post_retrieval (u :: us) days_back load_all_replies comment_limit w
    = (r, w')
    /\ extends w w' evs
    /\ filter is_post evs
       = [EvHttp (api_request k trigger_url posts_params (Some (JList jobs)))]
    /\ List.length jobs = List.length (u :: us)
    /\ map (fun job => member job "url") jobs
       = map (fun url => Some (JStr url)) (u :: us)
    /\ Forall (fun job =>
                 member job "days_back" = Some (JNum days_back)
                 /\ member job "load_all_replies" = Some (JBool load_all_replies)
                 /\ member job "comment_limit" = Some (JStr comment_limit))
              jobs.
Proof.
  intros Hkey.
  destruct (pipeline_posts_once w k trigger_url posts_params
              (posts_payload (u :: us) days_back load_all_replies comment_limit)
              "reddit comments" Hkey) as (r & w' & evs & Hrun & Hext & Hpost).
  pose proof (reddit_post_retrieval_world w u us days_back load_all_replies
                                          comment_limit) as Hworld.
  rewrite Hrun in Hworld. cbn [snd] in Hworld.
  destruct (reddit_post_retrieval (u :: us) days_back load_all_replies
                                  comment_limit w) as [r' w''] eqn:Hadapter.
  cbn [snd] in Hworld. subst w''.
  exists r', w', evs. eexists.
  split; [reflexivity|]. split; [exact Hext|]. split; [exact Hpost|].
  split; [now rewrite length_map|]. split.
  - rewrite map_map. reflexivity.
  - apply Forall_map. apply Forall_forall. intros url _. repeat split.
Qed.

(** Witness of [reddit_post_retrieval_one_batch]: two URLs, one trigger. *)
Lemma reddit_post_retrieval_one_batch_witness :
  exists r w' evs jobs,
    reddit_post_retrieval ["https://www.reddit.com/r/a/1"%string;
                           "https://www.reddit.com/r/b/2"%string]
                          default_days_back default_load_all_replies
                          default_comment_limit snapshot_world
    = (r, w')
    /\ extends snapshot_world w' evs
    /\ filter is_post evs
       = [EvHttp (api_request "k3y" trigger_url posts_params (Some (JList jobs)))]
    /\ List.length jobs = 2
    /\ map (fun job => member job "url") jobs
       = map (fun url => Some (JStr url))
             ["https://www.reddit.com/r/a/1"%string;
              "https://www.reddit.com/r/b/2"%string]
    /\ Forall (fun job =>
                 member job "days_back" = Some (JNum default_days_back)
                 /\ member job "load_all_replies" = Some (JBool default_load_all_replies)
                 /\ member job "comment_limit" = Some (JStr default_comment_limit))
              jobs.
Proof.
  apply (reddit_post_retrieval_one_batch snapshot_world "k3y").
  split; [reflexivity | discriminate].
Defined.

Lemma parse_records_of_strings {A : Type} (f : json -> json) (g : A -> string)
      (xs : list A) :
  parse_records f (map (fun x => JStr (g x)) xs) = [].
Proof.
  unfold parse_records. induction xs as [|x xs IH]; [reflexivity | exact IH].
Qed.

(** X13. Whenever [reddit_search_api] returns a dict, every record of its
    [parsed_posts] is an object with exactly the keys [title] and [url];
    whenever [reddit_post_retrieval] returns a dict, every record of its
    [comments] is an object with exactly the keys [comment_id], [content]
    and [date]. *)
Theorem parsed_records_have_shape (w w' : world) (r : json) :
  (forall keyword date sort_by num_of_posts,
      reddit_search_api keyword date sort_by num_of_posts w = (Ok (Some r), w') ->
      exists posts,
        member r "parsed_posts" = Some (JList posts)
        /\ Forall (has_keys ["title"%string; "url"%string]) posts)
  /\ (forall urls days_back load_all_replies comment_limit,
         reddit_post_retrieval urls days_back load_all_replies comment_limit w
         = (Ok (Some r), w') ->
         exists comments,
           member r "comments" = Some (JList comments)
           /\ Forall (has_keys ["comment_id"%string; "content"%string; "date"%string])
                     comments).
Proof.
  split.
  - intros keyword date sort_by num_of_posts.
    unfold reddit_search_api, bind at 1.
    destruct (_execute_snapshot_pipeline _ _ _ _ w) as [[data|e] w1];
      [|discriminate].
    destruct (negb (truthy data)); [discriminate|].
    unfold bind. destruct (py_iter data w1) as [[entries|e] w2]; [|discriminate].
    unfold ret. intros H. injection H as <- _.
    eexists. split; [reflexivity|].
    unfold parse_records. apply Forall_map, Forall_forall. intros post _.
    eexists. split; reflexivity.
  - intros urls days_back load_all_replies comment_limit.
    unfold reddit_post_retrieval. destruct urls as [|u us]; [discriminate|].
    unfold bind at 1.
    destruct (_execute_snapshot_pipeline _ _ _ _ w) as [[data|e] w1];
      [|discriminate].
    destruct (negb (truthy data)); [discriminate|].
    unfold bind. destruct (py_iter data w1) as [[entries|e] w2]; [|discriminate].
    unfold ret. intros H. injection H as <- _.
    eexists. split; [reflexivity|].
    unfold parse_records. apply Forall_map, Forall_forall. intros comment _.
    eexists. split; reflexivity.
Qed.

(** Witness of [parsed_records_have_shape]. *)
Lemma parsed_records_have_shape_witness :
  exists comments,
    member (comments_result (map parse_comment (filter is_dict mixed_payload)))
           "comments" = Some (JList comments)
    /\ Forall (has_keys ["comment_id"%string; "content"%string; "date"%string])
              comments.
Proof.
  apply (proj2 (parsed_records_have_shape
                  snapshot_world
                  (snd (reddit_post_retrieval ["https://www.reddit.com/r/a/1"%string]
                          default_days_back default_load_all_replies
                          default_comment_limit snapshot_world))
                  (comments_result (map parse_comment (filter is_dict mixed_payload))))
               ["https://www.reddit.com/r/a/1"%string]
               default_days_back default_load_all_replies default_comment_limit).
  vm_compute. reflexivity.
Defined.

(** X14. When the snapshot pipeline delivers something truthy that is no
    array, the Reddit adapters do not report a failure: for an object
    (such as an error report) or a string they return a result with an
    empty record list and a count of 0; for a number or [True] they raise
    [TypeError]. *)
Theorem non_array_download (w w' : world) (data : json) :
  truthy data = true ->
  is_list data = false ->
  (forall keyword date sort_by num_of_posts,
      _execute_snapshot_pipeline trigger_url search_params
        (search_payload keyword date sort_by num_of_posts) "reddit search" w
      = (Ok data, w') ->
      reddit_search_api keyword date sort_by num_of_posts w
      = (match data with
         | JDict _ | JStr _ => Ok (Some (search_result []))
         | _ => Raise TypeError
         end, w'))
  /\ (forall u us days_back load_all_replies comment_limit,
         _execute_snapshot_pipeline trigger_url posts_params
           (posts_payload (u :: us) days_back load_all_replies comment_limit)
           "reddit comments" w
         = (Ok data, w') ->
         reddit_post_retrieval (u :: us) days_back load_all_replies comment_limit w
         = (match data with
            | JDict _ | JStr _ => Ok (Some (comments_result []))
            | _ => Raise TypeError
            end, w')).
Proof.
  intros Htrue Hlist. split.
  - intros keyword date sort_by num_of_posts Hpipe.
    unfold reddit_search_api, bind at 1. rewrite Hpipe, Htrue. cbn [negb].
    destruct data as [| b | n | s | items | fields];
      try discriminate Hlist; try reflexivity;
      unfold bind, py_iter, ret; now rewrite parse_records_of_strings.
  - intros u us days_back load_all_replies comment_limit Hpipe.
    unfold reddit_post_retrieval, bind at 1. rewrite Hpipe, Htrue. cbn [negb].
    destruct data as [| b | n | s | items | fields];
      try discriminate Hlist; try reflexivity;
      unfold bind, py_iter, ret; now rewrite parse_records_of_strings.
Qed.

(** Witness of [non_array_download]: the download is an error object, and
    the search reports zero posts. *)
Lemma non_array_download_witness :
  reddit_search_api (Some "q"%string) default_date default_sort_by
                    default_num_of_posts error_object_world
  = (Ok (Some (search_result [])),
     snd (_execute_snapshot_pipeline trigger_url search_params
            (search_payload (Some "q"%string) default_date default_sort_by
                            default_num_of_posts)
            "reddit search" error_object_world)).
Proof.
  apply (proj1 (non_array_download
                  error_object_world
                  (snd (_execute_snapshot_pipeline trigger_url search_params
                          (search_payload (Some "q"%string) default_date
                                          default_sort_by default_num_of_posts)
                          "reddit search" error_object_world))
                  (JDict [("error"%string, JStr "dataset is empty")])
                  eq_refl eq_refl)
               (Some "q"%string) default_date default_sort_by default_num_of_posts).
  vm_compute. reflexivity.
Defined.

(* ===================================================================== *)
(** ** More invariants of the graph *)
(* ===================================================================== *)

Lemma enabled_not_completed (done : list string) (n : string) :
  enabled done n = true -> ~ In n done.
Proof.
  unfold enabled. intros Hen Hin. apply andb_true_iff in Hen.
  destruct Hen as [Hnew _]. apply negb_true_iff in Hnew.
  assert (Hmem : mem n done = true).
  { unfold mem. apply existsb_exists. exists n. split; [exact Hin|].
    apply String.eqb_refl. }
  congruence.
Qed.



Lemma extract_reddit_urls_writes_list (s : ResearchState) (w w' : world) (p : patch) :
  extract_reddit_urls s w = (Ok p, w') ->
  exists urls, p = [Set_chosen_reddit_urls (Some urls)].
Proof. patch_shape extract_reddit_urls. Qed.

Lemma fetch_reddit_posts_writes_value (s : ResearchState) (w w' : world) (p : patch) :
  fetch_reddit_posts s w = (Ok p, w') ->
  exists data, p = [Set_reddit_posts_data (Some data)].
Proof. patch_shape fetch_reddit_posts. Qed.

(** A raw output the node did not write stays null unless its node has
    completed. *)
Ltac kept_if H :=
  intros Hx; right; exact (H Hx).

Lemma fields_follow_nodes_step (c c' : config) :
  fields_follow_nodes c -> step c c' -> fields_follow_nodes c'.
Proof.
  intros (HG & HB & HR & HU & HP) Hstep.
  inversion Hstep as [n f c0 p w' Hin Hen Hrun]; subst.
  unfold nodes in Hin. cbn [In] in Hin.
  repeat (destruct Hin as [Hin | Hin]; [injection Hin as <- <-|]);
    [ apply perform_google_search_patch in Hrun
    | apply perform_bing_search_patch in Hrun
    | apply perform_reddit_search_patch in Hrun
    | apply extract_reddit_urls_writes_list in Hrun
    | apply fetch_reddit_posts_writes_value in Hrun
    | apply analyze_google_data_patch in Hrun
    | apply analyze_bing_data_patch in Hrun
    | apply analyze_reddit_data_patch in Hrun
    | apply combine_insights_patch in Hrun
    | contradiction ];
    destruct Hrun as [v ->];
    unfold fields_follow_nodes;
    cbn [state_of completed apply_patch fold_left apply_update
         google_output bing_output reddit_output chosen_reddit_urls
         reddit_posts_data];
    (split; [first [kept_if HG | intros _; left; reflexivity]|]);
    (split; [first [kept_if HB | intros _; left; reflexivity]|]);
    (split; [first [kept_if HR | intros _; left; reflexivity]|]);
    (split; [first [kept HU | written]|]);
    first [kept HP | written].
Qed.

(** X16. At every point of every run, a raw output is non-null only if
    its search node has completed, [chosen_reddit_urls] is non-null
    exactly when [extract_reddit_urls] has completed, and
    [reddit_posts_data] exactly when [fetch_reddit_posts] has.  So
    [fetch_reddit_posts] never starts on a null URL list, and no analysis
    node starts on null post data. *)
Theorem fields_are_written_by_their_nodes
        (query : string) (w : world) (c : config) :
  reachable (initial_config query w) c ->
  fields_follow_nodes c
  /\ (enabled (completed c) "fetch_reddit_posts" = true ->
      chosen_reddit_urls (state_of c) <> None)
  /\ (forall n,
         In n ["analyze_google"%string; "analyze_bing"%string;
               "analyze_reddit"%string] ->
         enabled (completed c) n = true ->
         reddit_posts_data (state_of c) <> None).
Proof.
  intros Hreach.
  assert (Hinv : fields_follow_nodes c).
  { induction Hreach as [|c c' _ IH Hstep].
    - unfold fields_follow_nodes. cbn.
      repeat split; try (intros H; now contradiction H); intros [].
    - eapply fields_follow_nodes_step; eassumption. }
  split; [exact Hinv|]. destruct Hinv as (_ & _ & _ & HU & HP). split.
  - intros Hen. apply HU.
    apply (enabled_dependencies _ _ _ Hen); [apply edge_in; reflexivity | discriminate].
  - intros n Hn Hen. apply HP.
    cbn [In] in Hn.
    destruct Hn as [<- | [<- | [<- | []]]];
      apply (enabled_dependencies _ _ _ Hen);
      first [apply edge_in; reflexivity | discriminate].
Qed.

(** Witness of [fields_are_written_by_their_nodes]. *)
Lemma fields_are_written_by_their_nodes_witness :
  fields_follow_nodes degraded_run
  /\ (enabled (completed degraded_run) "fetch_reddit_posts" = true ->
      chosen_reddit_urls (state_of degraded_run) <> None)
  /\ (forall n,
         In n ["analyze_google"%string; "analyze_bing"%string;
               "analyze_reddit"%string] ->
         enabled (completed degraded_run) n = true ->
         reddit_posts_data (state_of degraded_run) <> None).
Proof.
  apply (fields_are_written_by_their_nodes
           "q" (start_world env_with_key unreachable model_urls_ok) degraded_run).
  exact degraded_run_reachable.
Defined.

Lemma log_follows_summary_step (query : string) (c c' : config) :
  graph_invariant c ->
  log_follows_summary query (state_of c) ->
  step c c' ->
  log_follows_summary query (state_of c').
Proof.
  intros (_ & _ & _ & _ & HF) (Hq & Hlog) Hstep.
  inversion Hstep as [n f c0 p w' Hin Hen Hrun]; subst.
  pose proof (enabled_not_completed _ _ Hen) as Hnew.
  unfold nodes in Hin. cbn [In] in Hin.
  repeat (destruct Hin as [Hin | Hin]; [injection Hin as <- <-|]);
    [ apply perform_google_search_patch in Hrun
    | apply perform_bing_search_patch in Hrun
    | apply perform_reddit_search_patch in Hrun
    | apply extract_reddit_urls_patch in Hrun
    | apply fetch_reddit_posts_patch in Hrun
    | apply analyze_google_data_patch in Hrun
    | apply analyze_bing_data_patch in Hrun
    | apply analyze_reddit_data_patch in Hrun
    | apply combine_insights_patch in Hrun
    | contradiction ];
    destruct Hrun as [v ->];
    unfold log_follows_summary;
    cbn [state_of apply_patch fold_left apply_update
         user_query final_summary messages];
    (split; [exact Hq|]); try exact Hlog.
  right. exists v. split; [reflexivity|].
  destruct Hlog as [[_ ->] | (final & Hfinal & _)]; [reflexivity|].
  exfalso. apply Hnew, HF. rewrite Hfinal. discriminate.
Qed.

(** X17. At every point of every run the query in the state is the one
    the run was started with, and the message log is the user's message
    alone while there is no final summary, and the user's message
    followed by exactly one assistant message holding the final summary
    once there is one. *)
Theorem log_holds_question_and_answer (query : string) (w : world) (c : config) :
  reachable (initial_config query w) c ->
  log_follows_summary query (state_of c).
Proof.
  intros Hreach. induction Hreach as [|c c' Hprev IH Hstep].
  - split; [reflexivity|]. left. split; reflexivity.
  - eapply log_follows_summary_step; [|exact IH | exact Hstep].
    eapply graph_invariant_reachable; exact Hprev.
Qed.

(** Witness of [log_holds_question_and_answer]. *)
Lemma log_holds_question_and_answer_witness :
  log_follows_summary "q" (state_of degraded_run).
Proof.
  apply (log_holds_question_and_answer
           "q" (start_world env_with_key unreachable model_urls_ok) degraded_run).
  exact degraded_run_reachable.
Defined.

(* ===================================================================== *)
(** ** The nodes in any world *)
(* ===================================================================== *)

Lemma print_urls_run (urls : list string) :
  forall (idx : Z) (w : world),
    exists w' evs,
      print_urls idx urls w = (Ok tt, w')
      /\ extends w w' evs
      /\ actions evs = [].
Proof.
  induction urls as [|u rest IH]; intros idx w.
  - exists w, []. split; [reflexivity|]. split; [apply extends_refl | reflexivity].
  - cbn [print_urls]. unfold bind at 1, print, emit.
    match goal with
    | |- context [print_urls (idx + 1) rest ?w1] =>
        destruct (IH (idx + 1)%Z w1) as (w2 & e2 & Hrun & Hext & Hact)
    end.
    exists w2, ([EvPrint (LogSelectedUrl idx u)] ++ e2).
    split; [exact Hrun|]. split.
    + eapply extends_trans; [|exact Hext]. extends_by_trace.
    + rewrite actions_app, Hact. reflexivity.
Qed.

(** X18. [extract_reddit_urls] never raises and never uses the network,
    in any state and any world: it returns a URL list, after at most one
    model call.  When there is Reddit raw output and the model answers,
    the list is exactly the model's [selected_urls]; it is neither
    filtered nor checked against the search results. *)
Theorem extract_reddit_urls_always_returns (s : ResearchState) (w : world) :
  exists urls w' evs,
    extract_reddit_urls s w = (Ok [Set_chosen_reddit_urls (Some urls)], w')
    /\ extends w w' evs
    /\ filter is_http evs = []
    /\ List.length (filter is_model evs) <= 1
    /\ (forall selected,
           has_reddit_output s = true ->
           model_urls w (asked w) (url_prompt s) = Ok selected ->
           urls = selected).
Proof.
  unfold extract_reddit_urls, has_reddit_output, url_prompt.
  destruct (truthy_opt (reddit_output s)) eqn:Hraw; cbn [negb].
  - unfold bind at 1, try_except, bind at 1, structured_llm_invoke.
    destruct (model_urls w (asked w)
                (reddit_url_analysis_msgs (user_query s) (reddit_output s)))
      as [selected|e] eqn:Hmodel.
    + unfold bind at 1, print, emit. unfold bind at 1.
      match goal with
      | |- context [print_urls 1 selected ?w1] =>
          destruct (print_urls_run selected 1%Z w1) as (w2 & e2 & Hrun & Hext & Hact)
      end.
      rewrite Hrun. cbn [ret].
      exists selected, w2.
      exists ([EvModel true (reddit_url_analysis_msgs (user_query s) (reddit_output s));
               EvPrint LogSelectedUrls] ++ e2).
      assert (Hhttp : filter is_http e2 = []).
      { now rewrite <- http_of_actions, Hact. }
      assert (Hmod : filter is_model e2 = []).
      { clear - Hact. induction e2 as [|e t IH]; [reflexivity|].
        destruct e; cbn in Hact; try discriminate Hact; cbn; auto. }
      split; [reflexivity|]. split; [|split; [|split]].
      * eapply extends_trans; [|exact Hext]. extends_by_trace.
      * rewrite filter_app, Hhttp. reflexivity.
      * rewrite filter_app, Hmod. cbn. lia.
      * intros sel _ Hsel. congruence.
    + cbn. exists [].
      do 2 eexists. split; [reflexivity|]. split; [extends_by_trace|].
      split; [reflexivity|]. split; [cbn; lia|].
      intros sel _ Hsel. discriminate Hsel.
  - exists [], w, []. split; [reflexivity|]. split; [apply extends_refl|].
    split; [reflexivity|]. split; [cbn; lia|].
    intros sel Hsel. discriminate Hsel.
Qed.

Lemma degraded_extends (w w' : world) (evs : list event) (k : string) :
  extends w w' evs -> degraded w k -> degraded w' k.
Proof.
  intros Hext (Hkey & Hdown & Hup).
  split; [eapply has_api_key_extends; eassumption|].
  destruct Hext as ((_ & Hp & Hm & _) & _).
  split; [intros n r; rewrite Hp; apply Hdown | intros n p; rewrite Hm; apply Hup].
Qed.

Lemma reached_of_run (w w' : world) (evs : list event) (k : string) (a b : nat) :
  degraded w k ->
  extends w w' evs ->
  List.length (filter is_http evs) = a ->
  List.length (filter is_model evs) = b ->
  reached w w' k a b.
Proof.
  intros Hdeg Hext <- <-. split; [eapply degraded_extends; eassumption|].
  destruct Hext as (_ & _ & -> & ->). split; reflexivity.
Qed.

Lemma down_is_falsy (w : world) (r : request) :
  provider_down w -> truthy (body_or_none (provider w (sent w) r)) = false.
Proof. intros Hdown. destruct (Hdown (sent w) r) as [e ->]. reflexivity. Qed.

Lemma google_node_when_down (s : ResearchState) (w : world) (k q : string) :
  degraded w k ->
  user_query s = Some q ->
  exists w',
    perform_google_search s w = (Ok [Set_google_output None], w')
    /\ reached w w' k 1 0.
Proof.
  intros Hdeg Hq. unfold perform_google_search. rewrite Hq.
  unfold bind, print, emit.
  match goal with
  | |- context [serp_search (Some q) "google" ?w1] =>
      assert (Hext1 : extends w w1 [EvPrint (LogSearching "Google" (Some q))])
        by extends_by_trace;
      destruct (serp_search_falsy_run w1 k q "google" "https://www.google.com/search")
        as (w2 & e2 & Hrun & Hext & Hact)
  end.
  { eapply degraded_extends; eassumption. }
  { reflexivity. }
  { apply down_is_falsy. eapply degraded_extends; eassumption. }
  exists w2. split; [rewrite Hrun; reflexivity|].
  apply (reached_of_run _ _ _ _ _ _ Hdeg (extends_trans _ _ _ _ _ Hext1 Hext)).
  - rewrite filter_app, <- (http_of_actions e2), Hact. reflexivity.
  - rewrite filter_app, <- (model_of_actions e2), Hact. reflexivity.
Qed.

Lemma bing_node_when_down (s : ResearchState) (w : world) (k q : string) :
  degraded w k ->
  user_query s = Some q ->
  exists w',
    perform_bing_search s w = (Ok [Set_bing_output None], w')
    /\ reached w w' k 1 0.
Proof.
  intros Hdeg Hq. unfold perform_bing_search. rewrite Hq.
  unfold bind, print, emit.
  match goal with
  | |- context [serp_search (Some q) "bing" ?w1] =>
      assert (Hext1 : extends w w1 [EvPrint (LogSearching "Bing" (Some q))])
        by extends_by_trace;
      destruct (serp_search_falsy_run w1 k q "bing" "https://www.bing.com/search")
        as (w2 & e2 & Hrun & Hext & Hact)
  end.
  { eapply degraded_extends; eassumption. }
  { reflexivity. }
  { apply down_is_falsy. eapply degraded_extends; eassumption. }
  exists w2. split; [rewrite Hrun; reflexivity|].
  apply (reached_of_run _ _ _ _ _ _ Hdeg (extends_trans _ _ _ _ _ Hext1 Hext)).
  - rewrite filter_app, <- (http_of_actions e2), Hact. reflexivity.
  - rewrite filter_app, <- (model_of_actions e2), Hact. reflexivity.
Qed.

Lemma reddit_node_when_down (s : ResearchState) (w : world) (k : string) :
  degraded w k ->
  exists w',
    perform_reddit_search s w = (Ok [Set_reddit_output None], w')
    /\ reached w w' k 1 0.
Proof.
  intros Hdeg. unfold perform_reddit_search.
  unfold bind, print, emit.
  match goal with
  | |- context [reddit_search_api ?kw ?d ?sb ?np ?w1] =>
      assert (Hext1 : extends w w1 [EvPrint (LogSearching "Reddit" kw)])
        by extends_by_trace;
      destruct (pipeline_trigger_unusable w1 k trigger_url search_params
                  (search_payload kw d sb np) "reddit search")
        as (w2 & e2 & Hrun & Hext & Hact)
  end.
  { eapply degraded_extends; eassumption. }
  { left. apply down_is_falsy. eapply degraded_extends; eassumption. }
  eexists. split.
  - unfold reddit_search_api, bind at 1. rewrite Hrun.
    unfold ret. cbn. reflexivity.
  - apply (reached_of_run _ _ ([EvPrint (LogSearching "Reddit" (user_query s))]
                               ++ e2 ++ [EvPrint (LogValue None)]) _ _ _ Hdeg).
    + eapply extends_trans; [exact Hext1|].
      eapply extends_trans; [exact Hext|]. extends_by_trace.
    + rewrite !filter_app, <- (http_of_actions e2), Hact. reflexivity.
    + rewrite !filter_app, <- (model_of_actions e2), Hact. reflexivity.
Qed.

Lemma analysis_when_model_answers (w : world) (k : string) (l : log_line)
      (p : prompt) (wrap : string -> patch) :
  degraded w k ->
  exists t w',
    (print l ;; response <- llm_invoke p ;; ret (wrap response)) w = (Ok (wrap t), w')
    /\ reached w w' k 0 1.
Proof.
  intros Hdeg. unfold bind, print, emit, llm_invoke, ret.
  cbn [model_text asked environ provider model_urls sent trace].
  destruct Hdeg as (Hkey & Hdown & Hup).
  destruct (Hup (asked w) p) as [t Ht]. rewrite Ht.
  exists t. eexists. split; [reflexivity|].
  apply (reached_of_run w _ [EvPrint l; EvModel false p] k 0 1).
  - exact (conj Hkey (conj Hdown Hup)).
  - extends_by_trace.
  - reflexivity.
  - reflexivity.
Qed.

Lemma run_order_cons (n : string) (f : ResearchState -> M patch)
      (rest : list string) (c : config) (p : patch) (w' : world) :
  find_node n nodes = Some f ->
  enabled (completed c) n = true ->
  f (state_of c) (world_of c) = (Ok p, w') ->
  run_order (n :: rest) c
  = run_order rest (mkConfig (apply_patch (state_of c) p) (n :: completed c) w').
Proof. intros Hf Hen Hrun. cbn [run_order]. now rewrite Hf, Hen, Hrun. Qed.

(** Advances a run by the node [n], whose completion [Hrun] states. *)
Ltac run_node n f Hrun :=
  erewrite (run_order_cons n f); [ | reflexivity | reflexivity | exact Hrun ].

(** X19. When the credential is set, every request to the provider fails
    and the model answers, a run under the schedule still completes: the
    three raw outputs are null, the URL list and the post data are empty
    lists, the three summaries and the final summary are populated.  The
    run sent three requests (two SERP searches and one trigger) and
    called the model four times: the URL selection was skipped. *)
Theorem run_completes_when_provider_is_down (query k : string) (w : world) :
  degraded w k ->
  exists c w',
    invoke query w = Some (Ok c, w')
    /\ google_output (state_of c) = None
    /\ bing_output (state_of c) = None
    /\ reddit_output (state_of c) = None
    /\ chosen_reddit_urls (state_of c) = Some []
    /\ reddit_posts_data (state_of c) = Some (JList [])
    /\ google_summary (state_of c) <> None
    /\ bing_summary (state_of c) <> None
    /\ reddit_summary (state_of c) <> None
    /\ final_summary (state_of c) <> None
    /\ sent w' = sent w + 3
    /\ asked w' = asked w + 4.
Proof.
  intros Hdeg. unfold invoke, schedule.
  destruct (google_node_when_down (initial_state query) w k query Hdeg eq_refl)
    as (w1 & Hrun1 & Hdeg1 & Hs1 & Ha1).
  run_node ("google_search"%string) perform_google_search Hrun1.
  cbn [apply_patch fold_left apply_update initial_config initial_state state_of
       completed messages user_query google_output bing_output reddit_output
       chosen_reddit_urls reddit_posts_data google_summary bing_summary
       reddit_summary final_summary].
  match goal with
  | |- context [run_order _ (mkConfig ?s1 _ _)] =>
      destruct (bing_node_when_down s1 w1 k query Hdeg1 eq_refl)
        as (w2 & Hrun2 & Hdeg2 & Hs2 & Ha2)
  end.
  run_node ("bing_search"%string) perform_bing_search Hrun2.
  cbn [apply_patch fold_left apply_update state_of completed messages user_query
       google_output bing_output reddit_output chosen_reddit_urls
       reddit_posts_data google_summary bing_summary reddit_summary final_summary].
  match goal with
  | |- context [run_order _ (mkConfig ?s2 _ _)] =>
      destruct (reddit_node_when_down s2 w2 k Hdeg2)
        as (w3 & Hrun3 & Hdeg3 & Hs3 & Ha3)
  end.
  run_node ("reddit_search"%string) perform_reddit_search Hrun3.
  cbn [apply_patch fold_left apply_update state_of completed messages user_query
       google_output bing_output reddit_output chosen_reddit_urls
       reddit_posts_data google_summary bing_summary reddit_summary final_summary].
  match goal with
  | |- context [run_order _ (mkConfig ?s3 _ _)] =>
      pose proof (extract_without_reddit_output s3 w3 eq_refl) as Hrun4
  end.
  run_node ("extract_reddit_urls"%string) extract_reddit_urls Hrun4.
  cbn [apply_patch fold_left apply_update state_of completed messages user_query
       google_output bing_output reddit_output chosen_reddit_urls
       reddit_posts_data google_summary bing_summary reddit_summary final_summary].
  match goal with
  | |- context [run_order _ (mkConfig ?s4 _ _)] =>
      destruct (fetch_without_urls s4 w3 eq_refl) as (w5 & Hrun5 & Hext5)
  end.
  pose proof (reached_of_run _ _ _ k 0 0 Hdeg3 Hext5 eq_refl eq_refl)
    as (Hdeg5 & Hs5 & Ha5).
  run_node ("fetch_reddit_posts"%string) fetch_reddit_posts Hrun5.
  cbn [apply_patch fold_left apply_update state_of completed messages user_query
       google_output bing_output reddit_output chosen_reddit_urls
       reddit_posts_data google_summary bing_summary reddit_summary final_summary].
  match goal with
  | |- context [run_order _ (mkConfig ?s5 _ _)] =>
      destruct (analysis_when_model_answers w5 k (LogAnalysis "Google")
                  (google_analysis_msgs (user_query s5) (google_output s5))
                  (fun r => [Set_google_summary (Some r)]) Hdeg5)
        as (t6 & w6 & Hrun6 & Hdeg6 & Hs6 & Ha6)
  end.
  run_node ("analyze_google"%string) analyze_google_data Hrun6.
  cbn [apply_patch fold_left apply_update state_of completed messages user_query
       google_output bing_output reddit_output chosen_reddit_urls
       reddit_posts_data google_summary bing_summary reddit_summary final_summary].
  match goal with
  | |- context [run_order _ (mkConfig ?s6 _ _)] =>
      destruct (analysis_when_model_answers w6 k (LogAnalysis "Bing")
                  (bing_analysis_msgs (user_query s6) (bing_output s6))
                  (fun r => [Set_bing_summary (Some r)]) Hdeg6)
        as (t7 & w7 & Hrun7 & Hdeg7 & Hs7 & Ha7)
  end.
  run_node ("analyze_bing"%string) analyze_bing_data Hrun7.
  cbn [apply_patch fold_left apply_update state_of completed messages user_query
       google_output bing_output reddit_output chosen_reddit_urls
       reddit_posts_data google_summary bing_summary reddit_summary final_summary].
  match goal with
  | |- context [run_order _ (mkConfig ?s7 _ _)] =>
      destruct (analysis_when_model_answers w7 k (LogAnalysis "Reddit")
                  (reddit_discussion_msgs (user_query s7) (reddit_output s7)
                                          (reddit_posts_data s7))
                  (fun r => [Set_reddit_summary (Some r)]) Hdeg7)
        as (t8 & w8 & Hrun8 & Hdeg8 & Hs8 & Ha8)
  end.
  run_node ("analyze_reddit"%string) analyze_reddit_data Hrun8.
  cbn [apply_patch fold_left apply_update state_of completed messages user_query
       google_output bing_output reddit_output chosen_reddit_urls
       reddit_posts_data google_summary bing_summary reddit_summary final_summary].
  match goal with
  | |- context [run_order _ (mkConfig ?s8 _ _)] =>
      destruct (analysis_when_model_answers w8 k LogSynthesis
                  (synthesis_msgs (user_query s8) (google_summary s8)
                                  (bing_summary s8) (reddit_summary s8))
                  (fun r => [Set_final_summary (Some r);
                             Add_messages [mkMessage "assistant" r]]) Hdeg8)
        as (t9 & w9 & Hrun9 & Hdeg9 & Hs9 & Ha9)
  end.
  run_node ("synthesize_results"%string) combine_insights Hrun9.
  cbn [run_order apply_patch fold_left apply_update state_of completed world_of
       messages user_query google_output bing_output reddit_output
       chosen_reddit_urls reddit_posts_data google_summary bing_summary
       reddit_summary final_summary].
  do 2 eexists. split; [reflexivity|].
  cbn [state_of google_output bing_output reddit_output chosen_reddit_urls
       reddit_posts_data google_summary bing_summary reddit_summary final_summary].
  repeat split; try discriminate; lia.
Qed.

(** Witness of [run_completes_when_provider_is_down]. *)
Lemma run_completes_when_provider_is_down_witness :
  exists c w',
    invoke "q" (start_world env_with_key unreachable model_urls_ok) = Some (Ok c, w')
    /\ google_output (state_of c) = None
    /\ bing_output (state_of c) = None
    /\ reddit_output (state_of c) = None
    /\ chosen_reddit_urls (state_of c) = Some []
    /\ reddit_posts_data (state_of c) = Some (JList [])
    /\ google_summary (state_of c) <> None
    /\ bing_summary (state_of c) <> None
    /\ reddit_summary (state_of c) <> None
    /\ final_summary (state_of c) <> None
    /\ sent w' = 0 + 3
    /\ asked w' = 0 + 4.
Proof.
  apply (run_completes_when_provider_is_down
           "q" "k3y" (start_world env_with_key unreachable model_urls_ok)).
  split; [split; [reflexivity | discriminate]|].
  split; [intros n r; exists RequestException; reflexivity|].
  intros n p. exists "summary"%string. reflexivity.
Defined.

(* ===================================================================== *)
(** ** The encoding of the query *)
(* ===================================================================== *)

Lemma hex_digit_safe (m : nat) : m < 16 -> always_safe (hex_digit m) = true.
Proof.
  intros Hm.
  do 16 (destruct m as [|m]; [reflexivity|]). lia.
Qed.

Lemma hex_value_digit (m : nat) : m < 16 -> hex_value (hex_digit m) = m.
Proof.
  intros Hm.
  do 16 (destruct m as [|m]; [reflexivity|]). lia.
Qed.

Lemma always_safe_not_special (c : ascii) :
  always_safe c = true ->
  Ascii.eqb c "+" = false /\ Ascii.eqb c "%" = false /\ Ascii.eqb c " " = false.
Proof.
  intros Hsafe. repeat split.
  - destruct (Ascii.eqb_spec c "+") as [-> |]; [discriminate Hsafe | reflexivity].
  - destruct (Ascii.eqb_spec c "%") as [-> |]; [discriminate Hsafe | reflexivity].
  - destruct (Ascii.eqb_spec c " ") as [-> |]; [discriminate Hsafe | reflexivity].
Qed.

Lemma byte_split (c : ascii) :
  nat_of_ascii c / 16 < 16 /\ nat_of_ascii c mod 16 < 16.
Proof.
  pose proof (nat_ascii_bounded c) as Hb. split.
  - apply Nat.Div0.div_lt_upper_bound. lia.
  - apply Nat.mod_upper_bound. lia.
Qed.

(** X20. Every character of an encoded query is a letter, a digit, one of
    [_.-~], [+] or [%]: whatever the query, it cannot put a space or one
    of [& = # ? /] into the search URL, so it cannot end the [q]
    parameter or add another one. *)
Theorem quote_plus_is_url_safe (query : string) :
  Forall (fun c => url_safe c = true) (list_ascii_of_string (quote_plus query))
  /\ (forall c,
         In c (list_ascii_of_string (quote_plus query)) ->
         ~ In c [" "; "&"; "="; "#"; "?"; "/"]%char).
Proof.
  assert (Hsafe : Forall (fun c => url_safe c = true)
                         (list_ascii_of_string (quote_plus query))).
  { induction query as [|c rest IH]; [constructor|].
    cbn [quote_plus]. destruct (always_safe c) eqn:Hc.
    - cbn [list_ascii_of_string]. constructor; [|exact IH].
      unfold url_safe. now rewrite Hc.
    - destruct (Ascii.eqb c " ").
      + cbn [list_ascii_of_string]. constructor; [reflexivity | exact IH].
      + destruct (byte_split c) as [Hhi Hlo].
        cbn [list_ascii_of_string].
        constructor; [reflexivity|].
        constructor; [unfold url_safe; now rewrite hex_digit_safe|].
        constructor; [unfold url_safe; now rewrite hex_digit_safe|].
        exact IH. }
  split; [exact Hsafe|].
  intros c Hin Hbad. rewrite Forall_forall in Hsafe.
  specialize (Hsafe c Hin). cbn [In] in Hbad.
  destruct Hbad as [<- | [<- | [<- | [<- | [<- | [<- | []]]]]]];
    discriminate Hsafe.
Qed.

Lemma unquote_quote_append (query rest : string) :
  unquote_plus (String.append (quote_plus query) rest)
  = String.append query (unquote_plus rest).
Proof.
  induction query as [|c q IH]; [reflexivity|].
  cbn [quote_plus]. destruct (always_safe c) eqn:Hc.
  - destruct (always_safe_not_special c Hc) as (Hplus & Hpct & _).
    cbn [String.append unquote_plus]. now rewrite Hplus, Hpct, IH.
  - destruct (Ascii.eqb_spec c " ") as [-> | Hsp].
    + cbn [String.append unquote_plus]. cbn. now rewrite IH.
    + destruct (byte_split c) as [Hhi Hlo].
      cbn [String.append unquote_plus].
      change (Ascii.eqb "%" "+") with false. change (Ascii.eqb "%" "%") with true.
      cbv iota. rewrite !hex_value_digit by assumption.
      rewrite IH. f_equal.
      rewrite <- (ascii_nat_embedding c) at 3. f_equal.
      rewrite (Nat.div_mod_eq (nat_of_ascii c) 16) at 3. lia.
Qed.

Lemma length_of_append (a b : string) :
  String.length (String.append a b) = String.length a + String.length b.
Proof. induction a as [|c a IH]; [reflexivity|]. cbn. now rewrite IH. Qed.

Lemma append_cancel_l (a x y : string) :
  String.append a x = String.append a y -> x = y.
Proof.
  induction a as [|c a IH]; [exact (fun H => H)|].
  cbn. intros H. injection H as H. now apply IH.
Qed.

(** X21. The encoding of the query loses nothing: two searches with the
    same credential and engine send the same request only if their
    queries are equal. *)
Theorem serp_request_determines_query (k base q1 q2 : string) :
  serp_request k base q1 = serp_request k base q2 -> q1 = q2.
Proof.
  unfold serp_request, serp_payload, serp_url. intros H.
  injection H as H. apply append_cancel_l in H.
  apply (append_cancel_l "?q=") in H.
  pose proof (unquote_quote_append q1 "&brd_json=1") as H1.
  pose proof (unquote_quote_append q2 "&brd_json=1") as H2.
  rewrite H, H2 in H1. clear - H1.
  revert q2 H1. induction q1 as [|c q1 IH]; intros q2 H.
  - destruct q2 as [|d q2]; [reflexivity|].
    apply (f_equal String.length) in H. cbn in H.
    rewrite length_of_append in H. cbn in H. lia.
  - destruct q2 as [|d q2].
    + apply (f_equal String.length) in H. cbn in H.
      rewrite length_of_append in H. cbn in H. lia.
    + cbn in H. injection H as -> H. f_equal. apply IH. exact H.
Qed.

(** Witness of [serp_request_determines_query]. *)
Lemma serp_request_determines_query_witness : "a b"%string = "a b"%string.
Proof.
  apply (serp_request_determines_query
           "k3y" "https://www.google.com/search" "a b" "a b").
  reflexivity.
Defined.

(* ===================================================================== *)
(** ** Whole runs and the remaining nodes *)
(* ===================================================================== *)

Lemma run_order_node (n : string) (f : ResearchState -> M patch)
      (rest : list string) (c : config) :
  find_node n nodes = Some f ->
  enabled (completed c) n = true ->
  run_order (n :: rest) c
  = match f (state_of c) (world_of c) with
    | (Ok p, w') =>
        run_order rest (mkConfig (apply_patch (state_of c) p) (n :: completed c) w')
    | (Raise e, w') => Some (Raise e, w')
    end.
Proof. intros Hf Hen. cbn [run_order]. now rewrite Hf, Hen. Qed.

(** Runs the next node of the schedule and splits on its outcome. *)
Ltac next_node n f :=
  rewrite (run_order_node n f) by reflexivity;
  cbn [state_of world_of completed];
  match goal with
  | |- context [match f ?s ?w with _ => _ end] =>
      destruct (f s w) as [[? | ?] ?];
      [ | do 2 eexists; split; [reflexivity | intros ? Hok; discriminate Hok] ]
  end.

(** X22. The edges of the graph admit a schedule of all nine nodes: in
    every world a run under it either ends with the exception a node
    raised, or completes with every node of the graph completed,
    [synthesize_results] last. *)
Theorem schedule_runs_every_node (query : string) (w : world) :
  exists r w',
    invoke query w = Some (r, w')
    /\ forall c,
        r = Ok c ->
        (forall n, In n node_names -> In n (completed c))
        /\ hd_error (completed c) = Some "synthesize_results"%string.
Proof.
  unfold invoke, schedule.
  next_node ("google_search"%string) perform_google_search.
  next_node ("bing_search"%string) perform_bing_search.
  next_node ("reddit_search"%string) perform_reddit_search.
  next_node ("extract_reddit_urls"%string) extract_reddit_urls.
  next_node ("fetch_reddit_posts"%string) fetch_reddit_posts.
  next_node ("analyze_google"%string) analyze_google_data.
  next_node ("analyze_bing"%string) analyze_bing_data.
  next_node ("analyze_reddit"%string) analyze_reddit_data.
  next_node ("synthesize_results"%string) combine_insights.
  cbn [run_order]. do 2 eexists. split; [reflexivity|].
  intros c Hc. injection Hc as <-. cbn [completed]. split; [|reflexivity].
  intros n Hn. unfold node_names, nodes in Hn. cbn [map fst In] in Hn. cbn [In].
  tauto.
Qed.

(** X23. When URLs were chosen but the retrieval gives nothing (here:
    the credential is present and the trigger gives no snapshot to wait
    for), [fetch_reddit_posts] does not raise: it stores the empty list
    in [reddit_posts_data], after the single trigger request. *)
Theorem fetch_reddit_posts_degrades_to_empty
        (s : ResearchState) (w : world) (k u : string) (us : list string) :
  has_api_key w k ->
  chosen_reddit_urls s = Some (u :: us) ->
  trigger_unusable
    (provider w (sent w)
       (comments_trigger k (u :: us) default_days_back default_load_all_replies
                         default_comment_limit)) ->
  exists w' evs,
    fetch_reddit_posts s w = (Ok [Set_reddit_posts_data (Some (JList []))], w')
    /\ extends w w' evs
    /\ actions evs
       = [EvHttp (comments_trigger k (u :: us) default_days_back
                                   default_load_all_replies default_comment_limit)].
Proof.
  intros Hkey Hurls Hun. unfold fetch_reddit_posts. rewrite Hurls.
  unfold bind at 1, print, emit.
  match goal with
  | |- context [bind (reddit_post_retrieval _ _ _ _) _ ?w1] =>
      assert (Hext1 : extends w w1 [EvPrint (LogFetching
                                               (Z.of_nat (List.length (u :: us))))])
        by extends_by_trace;
      destruct (pipeline_trigger_unusable w1 k trigger_url posts_params
                  (posts_payload (u :: us) default_days_back
                                 default_load_all_replies default_comment_limit)
                  "reddit comments")
        as (w2 & e2 & Hrun & Hext & Hact)
  end.
  { eapply has_api_key_extends; eassumption. }
  { exact Hun. }
  unfold bind at 1, reddit_post_retrieval, bind at 1. rewrite Hrun.
  cbn [truthy negb ret truthy_opt]. unfold bind, print, emit, ret.
  do 2 eexists. split; [reflexivity|]. split.
  - eapply extends_trans; [exact Hext1|].
    eapply extends_trans; [exact Hext|]. extends_by_trace.
  - rewrite !actions_app, Hact. reflexivity.
Qed.

(** Witness of [fetch_reddit_posts_degrades_to_empty]: the provider is
    unreachable. *)
Lemma fetch_reddit_posts_degrades_to_empty_witness :
  exists w' evs,
    fetch_reddit_posts one_url_state
                       (start_world env_with_key unreachable model_urls_ok)
    = (Ok [Set_reddit_posts_data (Some (JList []))], w')
    /\ extends (start_world env_with_key unreachable model_urls_ok) w' evs
    /\ actions evs
       = [EvHttp (comments_trigger "k3y" ["https://www.reddit.com/r/a/1"%string]
                                   default_days_back default_load_all_replies
                                   default_comment_limit)].
Proof.
  apply (fetch_reddit_posts_degrades_to_empty
           one_url_state (start_world env_with_key unreachable model_urls_ok)
           "k3y" "https://www.reddit.com/r/a/1" []).
  - split; [reflexivity | discriminate].
  - reflexivity.
  - left. reflexivity.
Defined.

Lemma In_find_node (n : string) (f : ResearchState -> M patch) :
  In (n, f) nodes -> find_node n nodes = Some f.
Proof.
  intros Hin. unfold nodes in Hin. cbn [In] in Hin.
  repeat (destruct Hin as [Hin | Hin]; [injection Hin as <- <-; reflexivity|]).
  contradiction.
Qed.

(** X24. A model failure in an analysis node or in the synthesis is not
    caught: the node raises the model's exception, after its one model
    call and without any request, so no patch is produced and the run
    ends there. *)
Theorem analysis_errors_escape (s : ResearchState) (w : world) (e : exn) :
  (model_text w (asked w) (google_analysis_msgs (user_query s) (google_output s))
   = Raise e ->
   raises_before_network (analyze_google_data s) w e)
  /\ (model_text w (asked w) (bing_analysis_msgs (user_query s) (bing_output s))
      = Raise e ->
      raises_before_network (analyze_bing_data s) w e)
  /\ (model_text w (asked w)
                 (reddit_discussion_msgs (user_query s) (reddit_output s)
                                         (reddit_posts_data s))
      = Raise e ->
      raises_before_network (analyze_reddit_data s) w e)
  /\ (model_text w (asked w)
                 (synthesis_msgs (user_query s) (google_summary s)
                                 (bing_summary s) (reddit_summary s))
      = Raise e ->
      raises_before_network (combine_insights s) w e)
  /\ (forall c c' n f,
         In (n, f) [("analyze_google"%string, analyze_google_data);
                    ("analyze_bing"%string, analyze_bing_data);
                    ("analyze_reddit"%string, analyze_reddit_data);
                    ("synthesize_results"%string, combine_insights)] ->
         fst (f (state_of c) (world_of c)) = Raise e ->
         step c c' ->
         hd_error (completed c') <> Some n).
Proof.
  assert (Hraise : forall (l : log_line) (p : prompt) (wrap : string -> patch),
             model_text w (asked w) p = Raise e ->
             raises_before_network
               (print l ;; response <- llm_invoke p ;; ret (wrap response)) w e).
  { intros l p wrap Hm. unfold raises_before_network, bind, print, emit, llm_invoke.
    cbn [model_text asked environ provider model_urls sent trace]. rewrite Hm.
    do 2 eexists. split; [reflexivity|]. split; [extends_by_trace | reflexivity]. }
  split; [intros Hm; exact (Hraise _ _ (fun r => [Set_google_summary (Some r)]) Hm)|].
  split; [intros Hm; exact (Hraise _ _ (fun r => [Set_bing_summary (Some r)]) Hm)|].
  split; [intros Hm; exact (Hraise _ _ (fun r => [Set_reddit_summary (Some r)]) Hm)|].
  split; [intros Hm;
          exact (Hraise _ _ (fun r => [Set_final_summary (Some r);
                                       Add_messages [mkMessage "assistant" r]]) Hm)|].
  intros c c' n f Hnf Hfail Hstep Hhd.
  inversion Hstep as [n0 f0 c0 p w' Hin Hen Hrun]; subst.
  cbn [completed hd_error] in Hhd. injection Hhd as ->.
  assert (Hf : f0 = f).
  { apply In_find_node in Hin.
    assert (Hnf' : In (n, f) nodes).
    { cbn [In] in Hnf. unfold nodes. cbn [In].
      destruct Hnf as [Hnf | [Hnf | [Hnf | [Hnf | []]]]];
        injection Hnf as <- <-; tauto. }
    apply In_find_node in Hnf'. congruence. }
  subst f0. rewrite Hrun in Hfail. discriminate Hfail.
Qed.

(** Witness of [analysis_errors_escape]: the model is down for free
    text. *)
Lemma analysis_errors_escape_witness :
  raises_before_network
    (analyze_google_data reddit_failed_state)
    (mkWorld env_with_key unreachable (fun _ _ => Raise OtherException)
             model_urls_ok 0 0 [])
    OtherException.
Proof.
  apply (analysis_errors_escape
           reddit_failed_state
           (mkWorld env_with_key unreachable (fun _ _ => Raise OtherException)
                    model_urls_ok 0 0 [])
           OtherException).
  reflexivity.
Defined.

(* ===================================================================== *)
(** ** Intervals [time.sleep] refuses *)
(* ===================================================================== *)




